(** * BlockEvents: keyboard, drag and clipboard handlers of the block editor

    A shallow embedding of [src/components/modules/blockEvents.ts].

    The handlers of [BlockEvents] own no data: every decision reads a getter
    of a sibling module (BlockManager, Caret, Toolbar, BlockSelection, UI,
    ...) and every action is a method call on one of them.  The embedding
    therefore keeps the editor state abstract: the sibling modules are an
    interface ([EditorModules]) over an arbitrary state type, and a handler
    is a computation in a small monad that threads that state, records the
    method calls it makes in program order, and may stop with a JavaScript
    exception. *)

From Stdlib Require Import ZArith List String Bool Lia.
Import ListNotations.

Local Open Scope string_scope.
Local Open Scope Z_scope.
Local Open Scope list_scope.

(** ** Data the handlers read *)

(** A DOM node, by identity. *)
Definition Node := nat.

(** A promise returned by a sibling module, by identity. *)
Definition Promise := nat.

(** How a promise settles. *)
Inductive Settlement :=
| Fulfilled
| Rejected.

(** [block.tool]: the capability flags of the authoring tool. *)
Record Tool := mkTool {
  isLineBreaksEnabled : bool;
  isDefault : bool
}.

(** A [Block] as the handlers see it: the getters read in blockEvents.ts. *)
Record Block := mkBlock {
  name : string;
  holder : Node;
  pluginsContent : Node;
  tool : Tool;
  isEmpty : bool;
  selected : bool;
  mergeable : bool;
  hasMedia : bool;
  inputs : list Node;
  currentInput : option Node;
  firstInput : option Node
}.

(** What [BlocksAPI.getBlockByIndex] hands out. *)
Record BlockAPI := mkBlockAPI {
  api_name : string;
  api_holder : Node
}.

Record KeyboardEvent := mkKey {
  keyCode : Z;
  shiftKey : bool;
  metaKey : bool;
  ctrlKey : bool;
  altKey : bool
}.

Record ClipboardEvent := mkClip {
  clipboardData : nat
}.

Record DragEvent := mkDrag {
  target : Node
}.

(** The event object passed on to sibling modules. *)
Inductive Event :=
| Key (e : KeyboardEvent)
| Clip (e : ClipboardEvent).

(** [_.keyCodes] of ../utils, as far as blockEvents.ts names them. *)
Record KeyCodes := mkKeyCodes {
  BACKSPACE : Z;
  TAB : Z;
  ENTER : Z;
  LEFT : Z;
  UP : Z;
  RIGHT : Z;
  DOWN : Z
}.

Definition keyCodes_list (k : KeyCodes) : list Z :=
  [BACKSPACE k; TAB k; ENTER k; LEFT k; UP k; RIGHT k; DOWN k].

(** [this.config] and the getters of [Module] read from it. *)
Record Config := mkConfig {
  defaultBlock : string;
  isRtl : bool
}.

(** [Caret.positions]. *)
Inductive Position :=
| START
| END
| DEFAULT.

Inductive JsError :=
| Error (message : string)
| TypeError (message : string).

(** The callbacks the handlers hand to [then] and to [_.delay]. *)
Inductive Task :=
| afterCopy (e : Event)
| afterMerge (targetBlock : Block)
| refreshCurrentInput.

(** [Array.prototype.includes]. *)
Definition includes {A : Type} (eqb : A -> A -> bool) (l : list A) (x : A) : bool :=
  existsb (eqb x) l.

(** [array[i]] for a number [i]: [undefined] outside the array. *)
Definition js_index {A : Type} (l : list A) (i : Z) : option A :=
  if i <? 0 then None else nth_error l (Z.to_nat i).

(** [a === b] on two values that are a DOM node or [undefined]. *)
Definition node_strict_eq (a b : option Node) : bool :=
  match a, b with
  | Some x, Some y => Nat.eqb x y
  | None, None => true
  | _, _ => false
  end.

Definition DEFAULT_TYPE_ACCEPT : list string :=
  ["paragraph"; "list"; "header"; "header01"; "header02"; "header03"].

(** JavaScript numbers enter only through DOM geometry; the handlers add,
    subtract, negate, take absolute values and compare them. *)
Class JsNumber (num : Type) := {
  num_of_Z : Z -> num;
  num_add : num -> num -> num;
  num_sub : num -> num -> num;
  num_mul : num -> num -> num;
  num_abs : num -> num;
  num_ltb : num -> num -> bool
}.

Record DOMRect (num : Type) := mkRect {
  top : num;
  height : num
}.
Arguments top {num} _.
Arguments height {num} _.
Arguments mkRect {num} _ _.

(** ** Method calls on sibling modules, the DOM and the event *)

Inductive Call (num : Type) :=
| event_preventDefault (e : Event)
| window_scrollTo (x y : num)
| window_scrollBy (x y : num)
| Toolbar_close
| Toolbar_moveAndOpen (b : option Block)
| Toolbox_open
| ConversionToolbar_close
| BlockSettings_open
| UI_closeAllToolbars
| UI_checkEmptiness
| BlockManager_clearFocused
| BlockManager_removeBlock (index : option Z)
| BlockManager_removeSelectedBlocks
| BlockManager_insertDefaultBlockAtIndex
    (index : Z) (needToFocus : option bool) (toolName : option string)
| BlockManager_split (toolName : string)
| BlockManager_mergeBlocks (targetBlock blockToMerge : Block)
| BlocksAPI_move (toIndex : Z)
| Block_set_focused (b : Block) (v : bool)
| Block_set_dropTarget (b : Block) (v : bool)
| Block_updateCurrentInput (b : Block)
| BlockSelection_clearSelection (e : Event)
| BlockSelection_copySelectedBlocks (e : Event)
| CrossBlockSelection_toggleBlockSelectedState (next : option bool)
| Caret_setToBlock (b : option Block) (position : option Position)
| Caret_navigateNext
| Caret_navigatePrevious
| Caret_createShadow (n : Node)
| Caret_restoreCaret (n : Node)
| Node_normalize (n : Node)
| Promise_then (p : Promise) (onFulfilled : Task)
| delay (callback : Task) (ms : Z).

Arguments event_preventDefault {num} _.
Arguments window_scrollTo {num} _ _.
Arguments window_scrollBy {num} _ _.
Arguments Toolbar_close {num}.
Arguments Toolbar_moveAndOpen {num} _.
Arguments Toolbox_open {num}.
Arguments ConversionToolbar_close {num}.
Arguments BlockSettings_open {num}.
Arguments UI_closeAllToolbars {num}.
Arguments UI_checkEmptiness {num}.
Arguments BlockManager_clearFocused {num}.
Arguments BlockManager_removeBlock {num} _.
Arguments BlockManager_removeSelectedBlocks {num}.
Arguments BlockManager_insertDefaultBlockAtIndex {num} _ _ _.
Arguments BlockManager_split {num} _.
Arguments BlockManager_mergeBlocks {num} _ _.
Arguments BlocksAPI_move {num} _.
Arguments Block_set_focused {num} _ _.
Arguments Block_set_dropTarget {num} _ _.
Arguments Block_updateCurrentInput {num} _.
Arguments BlockSelection_clearSelection {num} _.
Arguments BlockSelection_copySelectedBlocks {num} _.
Arguments CrossBlockSelection_toggleBlockSelectedState {num} _.
Arguments Caret_setToBlock {num} _ _.
Arguments Caret_navigateNext {num}.
Arguments Caret_navigatePrevious {num}.
Arguments Caret_createShadow {num} _.
Arguments Caret_restoreCaret {num} _.
Arguments Node_normalize {num} _.
Arguments Promise_then {num} _ _.
Arguments delay {num} _ _.

(** ** The sibling modules

    Getters are functions of the editor state; a method that returns a value
    gives the value and the next state; the effect of every other call is
    [perform].  None of this code is part of blockEvents.ts: the handlers are
    verified against every implementation of the interface. *)
Class EditorModules (num St : Type) := {
  (* BlockManager *)
  BlockManager_currentBlock : St -> option Block;
  BlockManager_currentBlockIndex : St -> Z;
  BlockManager_previousBlock : St -> option Block;
  BlockManager_blocks : St -> list Block;
  BlockManager_getBlockByChildNode : Node -> St -> option Block;
  do_insertDefaultBlockAtIndex : Z -> option bool -> option string -> St -> Block * St;
  do_split : string -> St -> Block * St;
  do_removeSelectedBlocks : St -> Z * St;
  do_mergeBlocks : Block -> Block -> St -> Promise * St;
  (* BlocksAPI *)
  BlocksAPI_getCurrentBlockIndex : St -> Z;
  BlocksAPI_getBlockByIndex : Z -> St -> option BlockAPI;
  (* Toolbar, Toolbox, BlockSettings, InlineToolbar, ConversionToolbar, UI *)
  Toolbar_opened : St -> bool;
  Toolbox_opened : St -> bool;
  BlockSettings_opened : St -> bool;
  InlineToolbar_opened : St -> bool;
  ConversionToolbar_opened : St -> bool;
  UI_someToolbarOpened : St -> bool;
  UI_someFlipperButtonFocused : St -> bool;
  (* Caret, SelectionUtils, BlockSelection *)
  Caret_isAtStart : St -> bool;
  Caret_isAtEnd : St -> bool;
  do_navigateNext : St -> bool * St;
  do_navigatePrevious : St -> bool * St;
  SelectionUtils_isCollapsed : St -> bool;
  BlockSelection_anyBlockSelected : St -> bool;
  do_copySelectedBlocks : Event -> St -> Promise * St;
  (* window and elements *)
  window_innerHeight : St -> num;
  window_scrollY : St -> num;
  offsetHeight : Node -> St -> num;
  getBoundingClientRect : Node -> St -> DOMRect num;
  (* every call that returns nothing *)
  perform : Call num -> St -> St
}.

(** ** The handler monad: state, call log, exceptions *)

Inductive Outcome (A : Type) :=
| Returned (a : A)
| Thrown (e : JsError).
Arguments Returned {A} _.
Arguments Thrown {A} _.

Record Run (num St A : Type) := mkRun {
  outcome : Outcome A;
  final : St;
  calls : list (Call num)
}.
Arguments mkRun {num St A} _ _ _.
Arguments outcome {num St A} _.
Arguments final {num St A} _.
Arguments calls {num St A} _.

Definition M (num St A : Type) : Type := St -> Run num St A.

Section Monad.
Context {num St : Type}.

Definition ret {A} (a : A) : M num St A :=
  fun s => mkRun (Returned a) s [].

Definition throw {A} (e : JsError) : M num St A :=
  fun s => mkRun (Thrown e) s [].

Definition bind {A B} (m : M num St A) (f : A -> M num St B) : M num St B :=
  fun s =>
    match m s with
    | mkRun (Returned a) s1 done =>
        match f a s1 with
        | mkRun o s2 more => mkRun o s2 (done ++ more)
        end
    | mkRun (Thrown e) s1 done => mkRun (Thrown e) s1 done
    end.

(** Read a getter. *)
Definition get {A} (g : St -> A) : M num St A :=
  fun s => mkRun (Returned (g s)) s [].

(** Call a method that returns a value. *)
Definition invoke {A} (c : Call num) (f : St -> A * St) : M num St A :=
  fun s => mkRun (Returned (fst (f s))) (snd (f s)) [c].

(** A call on the event or on [window]: logged, the editor is untouched. *)
Definition emit (c : Call num) : M num St unit :=
  fun s => mkRun (Returned tt) s [c].

(** Property access on a value that may be [undefined]. *)
Definition deref {A} (o : option A) (prop : string) : M num St A :=
  match o with
  | Some a => ret a
  | None => throw (TypeError (String.append "Cannot read properties of undefined: " prop))
  end.
End Monad.

Declare Scope js_scope.
Delimit Scope js_scope with js.
Notation "x <- m ;; k" := (bind m (fun x => k))
  (at level 100, m at next level, right associativity) : js_scope.
Notation "m ;; k" := (bind m (fun _ => k))
  (at level 100, right associativity) : js_scope.
Local Open Scope js_scope.

(** ** [switch]: first matching case, then fall through until [break] *)

Inductive Completion :=
| Break
| FallThrough.

Section Switch.
Context {num St : Type}.

Fixpoint run_cases (cases : list (Z * M num St Completion)) : M num St unit :=
  match cases with
  | [] => ret tt
  | (_, body) :: rest =>
      c <- body ;;
      match c with
      | Break => ret tt
      | FallThrough => run_cases rest
      end
  end.

Fixpoint switch (v : Z) (cases : list (Z * M num St Completion)) : M num St unit :=
  match cases with
  | [] => ret tt
  | (c, body) :: rest =>
      if v =? c then run_cases ((c, body) :: rest) else switch v rest
  end.
End Switch.

(** ** The handlers of [BlockEvents] *)

Section BlockEvents.
Context {num St : Type} `{JsNumber num} `{EditorModules num St}.

(** [_.keyCodes], [_.isPrintableKey], [Flipper.usedKeys] and [this.config]
    are imported by blockEvents.ts and defined elsewhere. *)
Variable keyCodes : KeyCodes.
Variable isPrintableKey : Z -> bool.
Variable Flipper_usedKeys : list Z.
Variable config : Config.

Local Abbreviation M := (M num St).

(** Call a method that returns nothing. *)
Definition call (c : Call num) : M unit :=
  fun s => mkRun (Returned tt) (perform c s) [c].

(** [needToolbarClosing], lines 669-696. *)
Definition needToolbarClosing (event : KeyboardEvent) : M bool :=
  toolboxItemSelected <-
    get (fun s => (keyCode event =? ENTER keyCodes) && Toolbox_opened s) ;;
  blockSettingsItemSelected <-
    get (fun s => (keyCode event =? ENTER keyCodes) && BlockSettings_opened s) ;;
  inlineToolbarItemSelected <-
    get (fun s => (keyCode event =? ENTER keyCodes) && InlineToolbar_opened s) ;;
  conversionToolbarItemSelected <-
    get (fun s => (keyCode event =? ENTER keyCodes) && ConversionToolbar_opened s) ;;
  let flippingToolbarItems := keyCode event =? TAB keyCodes in
  ret (negb (shiftKey event
             || flippingToolbarItems
             || toolboxItemSelected
             || blockSettingsItemSelected
             || inlineToolbarItemSelected
             || conversionToolbarItemSelected)).

(** [beforeKeydownProcessing], lines 152-183. *)
Definition beforeKeydownProcessing (event : KeyboardEvent) : M unit :=
  need <- needToolbarClosing event ;;
  if negb need then ret tt
  else if isPrintableKey (keyCode event) then
    call Toolbar_close ;;
    call ConversionToolbar_close ;;
    let isShortcut :=
      ctrlKey event || metaKey event || altKey event || shiftKey event in
    if negb isShortcut then
      call BlockManager_clearFocused ;;
      call (BlockSelection_clearSelection (Key event))
    else ret tt
  else ret tt.

(** [keyup], lines 192-204. *)
Definition keyup (event : KeyboardEvent) : M unit :=
  if shiftKey event then ret tt else call UI_checkEmptiness.

(** [activateToolbox], lines 701-707. *)
Definition activateToolbox : M unit :=
  opened <- get Toolbar_opened ;;
  (if negb opened then call (Toolbar_moveAndOpen None) else ret tt) ;;
  call Toolbox_open.

(** [activateBlockSettings], lines 712-730. *)
Definition activateBlockSettings : M unit :=
  opened <- get Toolbar_opened ;;
  (if negb opened then
     currentBlock <- get BlockManager_currentBlock ;;
     b <- deref currentBlock "focused" ;;
     call (Block_set_focused b true) ;;
     call (Toolbar_moveAndOpen None)
   else ret tt) ;;
  settingsOpened <- get BlockSettings_opened ;;
  if negb settingsOpened then call BlockSettings_open else ret tt.

(** [tabPressed], lines 211-240. *)
Definition tabPressed (event : KeyboardEvent) : M unit :=
  emit (event_preventDefault (Key event)) ;;
  call (BlockSelection_clearSelection (Key event)) ;;
  currentBlock <- get BlockManager_currentBlock ;;
  match currentBlock with
  | None => ret tt
  | Some currentBlock =>
      let isEmptyBlock := isEmpty currentBlock in
      let canOpenToolbox := isDefault (tool currentBlock) && isEmptyBlock in
      conversionToolbarOpened <-
        get (fun s => negb isEmptyBlock && ConversionToolbar_opened s) ;;
      inlineToolbarOpened <-
        get (fun s => negb isEmptyBlock
                      && negb (SelectionUtils_isCollapsed s)
                      && InlineToolbar_opened s) ;;
      let canOpenBlockTunes :=
        negb conversionToolbarOpened && negb inlineToolbarOpened in
      if canOpenToolbox then activateToolbox
      else if canOpenBlockTunes then activateBlockSettings
      else ret tt
  end.

(** [dragOver] and [dragLeave], lines 247-266. *)
Definition dragOver (event : DragEvent) : M unit :=
  block <- get (BlockManager_getBlockByChildNode (target event)) ;;
  b <- deref block "dropTarget" ;;
  call (Block_set_dropTarget b true).

Definition dragLeave (event : DragEvent) : M unit :=
  block <- get (BlockManager_getBlockByChildNode (target event)) ;;
  b <- deref block "dropTarget" ;;
  call (Block_set_dropTarget b false).

(** [handleCommandC], lines 274-283. *)
Definition handleCommandC (event : ClipboardEvent) : M unit :=
  anySelected <- get BlockSelection_anyBlockSelected ;;
  if negb anySelected then ret tt
  else
    _ <- invoke (BlockSelection_copySelectedBlocks (Clip event))
                (do_copySelectedBlocks (Clip event)) ;;
    ret tt.

(** [handleCommandX], lines 290-313; the arrow function given to [then] is
    [runTask (afterCopy event)] below. *)
Definition handleCommandX (event : ClipboardEvent) : M unit :=
  anySelected <- get BlockSelection_anyBlockSelected ;;
  if negb anySelected then ret tt
  else
    p <- invoke (BlockSelection_copySelectedBlocks (Clip event))
                (do_copySelectedBlocks (Clip event)) ;;
    emit (Promise_then p (afterCopy (Clip event))).

(** [enter], lines 320-405. *)
Definition enter (event : KeyboardEvent) : M unit :=
  currentBlock <- get BlockManager_currentBlock ;;
  cb <- deref currentBlock "tool" ;;
  if isLineBreaksEnabled (tool cb) then ret tt
  else
    flipper <- get (fun s => UI_someToolbarOpened s && UI_someFlipperButtonFocused s) ;;
    if flipper then ret tt
    else if shiftKey event then ret tt
    else
      newCurrent <- get BlockManager_currentBlock ;;
      atStart <- get Caret_isAtStart ;;
      noMedia <-
        (if atStart then
           b <- get BlockManager_currentBlock ;;
           b <- deref b "hasMedia" ;;
           ret (negb (hasMedia b))
         else ret false) ;;
      newCurrent <-
        (if atStart && noMedia then
           b <- get BlockManager_currentBlock ;;
           b <- deref b "name" ;;
           index <- get BlockManager_currentBlockIndex ;;
           if String.eqb (name b) "list" then
             inserted <-
               invoke (BlockManager_insertDefaultBlockAtIndex
                         index (Some false) (Some (defaultBlock config)))
                      (do_insertDefaultBlockAtIndex
                         index (Some false) (Some (defaultBlock config))) ;;
             ret (Some inserted)
           else
             _ <- invoke (BlockManager_insertDefaultBlockAtIndex index None None)
                         (do_insertDefaultBlockAtIndex index None None) ;;
             ret newCurrent
         else
           atEnd <- get Caret_isAtEnd ;;
           if atEnd then
             b <- get BlockManager_currentBlock ;;
             b <- deref b "name" ;;
             index <- get BlockManager_currentBlockIndex ;;
             if String.eqb (name b) "list" then
               inserted <-
                 invoke (BlockManager_insertDefaultBlockAtIndex
                           (index + 1) (Some false) (Some "list"))
                        (do_insertDefaultBlockAtIndex
                           (index + 1) (Some false) (Some "list")) ;;
               ret (Some inserted)
             else
               inserted <-
                 invoke (BlockManager_insertDefaultBlockAtIndex (index + 1) None None)
                        (do_insertDefaultBlockAtIndex (index + 1) None None) ;;
               ret (Some inserted)
           else
             blocks <- get BlockManager_blocks ;;
             index <- get BlockManager_currentBlockIndex ;;
             original <- deref (js_index blocks index) "name" ;;
             let newBlockType := name original in
             let toolName :=
               if includes String.eqb DEFAULT_TYPE_ACCEPT newBlockType
               then newBlockType else "paragraph" in
             created <- invoke (BlockManager_split toolName) (do_split toolName) ;;
             ret (Some created)) ;;
      call (Caret_setToBlock newCurrent None) ;;
      call (Toolbar_moveAndOpen newCurrent) ;;
      emit (event_preventDefault (Key event)).

(** [mergeBlocks], lines 489-526; the arrow function given to [then] is
    [runTask (afterMerge targetBlock)] below. *)
Definition mergeBlocks : M unit :=
  targetBlock <- get BlockManager_previousBlock ;;
  blockToMerge <- get BlockManager_currentBlock ;;
  blockToMerge <- deref blockToMerge "name" ;;
  targetBlock <- deref targetBlock "name" ;;
  if negb (String.eqb (name blockToMerge) (name targetBlock))
     || negb (mergeable targetBlock)
  then
    if (Z.of_nat (List.length (inputs targetBlock)) =? 0) || isEmpty targetBlock then
      index <- get BlockManager_currentBlockIndex ;;
      call (BlockManager_removeBlock (Some (index - 1))) ;;
      current <- get BlockManager_currentBlock ;;
      call (Caret_setToBlock current None) ;;
      call Toolbar_close
    else
      navigated <- invoke Caret_navigatePrevious do_navigatePrevious ;;
      if navigated then call Toolbar_close else ret tt
  else
    call (Caret_createShadow (pluginsContent targetBlock)) ;;
    p <- invoke (BlockManager_mergeBlocks targetBlock blockToMerge)
                (do_mergeBlocks targetBlock blockToMerge) ;;
    emit (Promise_then p (afterMerge targetBlock)).

(** The first test of [backspace], lines 420-424. *)
Definition removedByBackspace (b : Block) : bool :=
  selected b || (isEmpty b && node_strict_eq (currentInput b) (firstInput b)).

(** The test on the previous block, lines 429-434. *)
Definition inputlessMedia (previousBlock : option Block) : bool :=
  match previousBlock with
  | Some p =>
      (Z.of_nat (List.length (inputs p)) =? 0)
      && (String.eqb (name p) "image" || String.eqb (name p) "gallery")
  | None => false
  end.

(** [backspace], lines 412-484. *)
Definition backspace (event : KeyboardEvent) : M unit :=
  currentBlock <- get BlockManager_currentBlock ;;
  currentBlock <- deref currentBlock "tool" ;;
  let tool := tool currentBlock in
  if removedByBackspace currentBlock then
    emit (event_preventDefault (Key event)) ;;
    index <- get BlockManager_currentBlockIndex ;;
    previousBlock <- get BlockManager_previousBlock ;;
    (if inputlessMedia previousBlock
     then call (BlockManager_removeBlock (Some (index - 1)))
     else call (BlockManager_removeBlock None)) ;;
    current <- get BlockManager_currentBlock ;;
    call (Caret_setToBlock current (Some (if index =? 0 then START else END))) ;;
    call Toolbar_close ;;
    call (BlockSelection_clearSelection (Key event))
  else
    atStart <- get Caret_isAtStart ;;
    if isLineBreaksEnabled tool && negb atStart then ret tt
    else
      index <- get BlockManager_currentBlockIndex ;;
      let isFirstBlock := index =? 0 in
      collapsed <- get SelectionUtils_isCollapsed ;;
      let canMergeBlocks :=
        atStart
        && collapsed
        && node_strict_eq (currentInput currentBlock) (firstInput currentBlock)
        && negb isFirstBlock in
      if canMergeBlocks then
        emit (event_preventDefault (Key event)) ;;
        mergeBlocks
      else ret tt.

(** [isFlipperCombination], lines 534-536 and 608-609. *)
Definition isFlipperCombination (event : KeyboardEvent) : bool :=
  includes Z.eqb Flipper_usedKeys (keyCode event)
  && (negb (shiftKey event) || (keyCode event =? TAB keyCodes)).

(** The tail shared by both arrow handlers, lines 572-593 and 640-661. *)
Definition afterNavigation (event : KeyboardEvent) (isNavigated : bool) : M unit :=
  (if isNavigated then emit (event_preventDefault (Key event))
   else emit (delay refreshCurrentInput 20)) ;;
  call (BlockSelection_clearSelection (Key event)).

(** [arrowRightAndDown], lines 533-594. *)
Definition arrowRightAndDown (event : KeyboardEvent) : M unit :=
  toolbarOpened <- get UI_someToolbarOpened ;;
  if toolbarOpened && isFlipperCombination event then ret tt
  else
    call BlockManager_clearFocused ;;
    call Toolbar_close ;;
    shouldEnableCBS <-
      get (fun s => Caret_isAtEnd s || BlockSelection_anyBlockSelected s) ;;
    if shiftKey event && (keyCode event =? DOWN keyCodes) && shouldEnableCBS then
      call (CrossBlockSelection_toggleBlockSelectedState None)
    else
      let navigateNext :=
        (keyCode event =? DOWN keyCodes)
        || ((keyCode event =? RIGHT keyCodes) && negb (isRtl config)) in
      isNavigated <-
        (if navigateNext then invoke Caret_navigateNext do_navigateNext
         else invoke Caret_navigatePrevious do_navigatePrevious) ;;
      afterNavigation event isNavigated.

(** [arrowLeftAndUp], lines 601-662. *)
Definition arrowLeftAndUp (event : KeyboardEvent) : M unit :=
  toolbarOpened <- get UI_someToolbarOpened ;;
  if toolbarOpened && isFlipperCombination event then ret tt
  else
    (if toolbarOpened then call UI_closeAllToolbars else ret tt) ;;
    call BlockManager_clearFocused ;;
    call Toolbar_close ;;
    shouldEnableCBS <-
      get (fun s => Caret_isAtStart s || BlockSelection_anyBlockSelected s) ;;
    if shiftKey event && (keyCode event =? UP keyCodes) && shouldEnableCBS then
      call (CrossBlockSelection_toggleBlockSelectedState (Some false))
    else
      let navigatePrevious :=
        (keyCode event =? UP keyCodes)
        || ((keyCode event =? LEFT keyCodes) && negb (isRtl config)) in
      isNavigated <-
        (if navigatePrevious then invoke Caret_navigatePrevious do_navigatePrevious
         else invoke Caret_navigateNext do_navigateNext) ;;
      afterNavigation event isNavigated.

(** The body of [case _.keyCodes.DOWN], lines 45-82. *)
Definition moveImageDown (event : KeyboardEvent) : M unit :=
  if shiftKey event && metaKey event then
    currentBlockIndex <- get BlocksAPI_getCurrentBlockIndex ;;
    currentBlock <- get (BlocksAPI_getBlockByIndex currentBlockIndex) ;;
    currentBlock <- deref currentBlock "name" ;;
    if String.eqb (api_name currentBlock) "image" then
      nextBlock <- get (BlocksAPI_getBlockByIndex (currentBlockIndex + 1)) ;;
      match nextBlock with
      | None => throw (Error "Unable to move Block down since it is already the last")
      | Some nextBlock =>
          let nextBlockElement := api_holder nextBlock in
          nextBlockCoords <- get (getBoundingClientRect nextBlockElement) ;;
          innerHeight <- get window_innerHeight ;;
          nextHeight <- get (offsetHeight nextBlockElement) ;;
          scrollY <- get window_scrollY ;;
          let scrollOffset :=
            if num_ltb (top nextBlockCoords) innerHeight
            then num_add scrollY nextHeight
            else num_abs (num_sub innerHeight nextHeight) in
          call (window_scrollTo (num_of_Z 0) scrollOffset) ;;
          call (BlocksAPI_move (currentBlockIndex + 1))
      end
    else ret tt
  else ret tt.

(** The body of [case _.keyCodes.UP], lines 88-136. *)
Definition moveImageUp (event : KeyboardEvent) : M unit :=
  if shiftKey event && metaKey event then
    currentBlockIndex <- get BlocksAPI_getCurrentBlockIndex ;;
    currentBlock <- get (BlocksAPI_getBlockByIndex currentBlockIndex) ;;
    currentBlock <- deref currentBlock "name" ;;
    if String.eqb (api_name currentBlock) "image" then
      previousBlock <- get (BlocksAPI_getBlockByIndex (currentBlockIndex - 1)) ;;
      match previousBlock with
      | None => throw (Error "Unable to move Block up since it is already the first")
      | Some previousBlock =>
          if currentBlockIndex =? 0 then
            throw (Error "Unable to move Block up since it is already the first")
          else
          currentBlockCoords <- get (getBoundingClientRect (api_holder currentBlock)) ;;
          previousBlockCoords <- get (getBoundingClientRect (api_holder previousBlock)) ;;
          let scrollUpOffset :=
            if num_ltb (num_of_Z 0) (top previousBlockCoords)
            then num_sub (num_abs (top currentBlockCoords))
                         (num_abs (top previousBlockCoords))
            else num_add (num_abs (top currentBlockCoords))
                         (height previousBlockCoords) in
          call (window_scrollBy (num_of_Z 0) (num_mul (num_of_Z (-1)) scrollUpOffset)) ;;
          call (BlocksAPI_move (currentBlockIndex - 1))
      end
    else ret tt
  else ret tt.

(** [keydown], lines 26-145.  Only the cases that end in [break] do so. *)
Definition keydown (event : KeyboardEvent) : M unit :=
  beforeKeydownProcessing event ;;
  switch (keyCode event)
    [ (BACKSPACE keyCodes, backspace event ;; ret Break);
      (ENTER keyCodes, enter event ;; ret Break);
      (DOWN keyCodes, moveImageDown event ;; ret FallThrough);
      (RIGHT keyCodes, arrowRightAndDown event ;; ret Break);
      (UP keyCodes, moveImageUp event ;; ret FallThrough);
      (LEFT keyCodes, arrowLeftAndUp event ;; ret Break);
      (TAB keyCodes, tabPressed event ;; ret Break) ].

(** The callbacks that run later: the two [then] reactions and the function
    given to [_.delay]. *)
Definition runTask (t : Task) : M unit :=
  match t with
  | afterCopy event =>
      selectionPositionIndex <-
        invoke BlockManager_removeSelectedBlocks do_removeSelectedBlocks ;;
      insertedBlock <-
        invoke (BlockManager_insertDefaultBlockAtIndex
                  selectionPositionIndex (Some true) None)
               (do_insertDefaultBlockAtIndex selectionPositionIndex (Some true) None) ;;
      call (Caret_setToBlock (Some insertedBlock) (Some START)) ;;
      call (BlockSelection_clearSelection event)
  | afterMerge targetBlock =>
      call (Caret_restoreCaret (pluginsContent targetBlock)) ;;
      call (Node_normalize (pluginsContent targetBlock)) ;;
      call Toolbar_close
  | refreshCurrentInput =>
      currentBlock <- get BlockManager_currentBlock ;;
      match currentBlock with
      | Some b => call (Block_updateCurrentInput b)
      | None => ret tt
      end
  end.

(** A promise settles: a fulfilment runs the reactions registered on it with
    [then], a rejection runs none of them (no handler takes a second
    argument and none calls [catch]). *)
Fixpoint settle (p : Promise) (how : Settlement) (registered : list (Call num)) : M unit :=
  match registered with
  | [] => ret tt
  | Promise_then q t :: rest =>
      (if Nat.eqb p q then
         match how with
         | Fulfilled => runTask t
         | Rejected => ret tt
         end
       else ret tt) ;;
      settle p how rest
  | _ :: rest => settle p how rest
  end.

End BlockEvents.

(** ** A reference editor

    One implementation of [EditorModules], small enough to run the handlers
    on concrete editors: a list of blocks, the current index and the flags
    the getters report.  Numbers are integers here. *)

Module Sim.

#[export] Instance ZNumber : JsNumber Z := {
  num_of_Z := fun z => z;
  num_add := Z.add;
  num_sub := Z.sub;
  num_mul := Z.mul;
  num_abs := Z.abs;
  num_ltb := Z.ltb
}.

Record Editor := mkEditor {
  blocks : list Block;
  currentBlockIndex : Z;
  toolbarOpened : bool;
  toolboxOpened : bool;
  blockSettingsOpened : bool;
  inlineToolbarOpened : bool;
  conversionToolbarOpened : bool;
  flipperButtonFocused : bool;
  caretAtStart : bool;
  caretAtEnd : bool;
  selectionCollapsed : bool;
  caretCanNavigate : bool;
  nextNode : Node
}.

Definition set_blocks (bs : list Block) (i : Z) (e : Editor) : Editor :=
  mkEditor bs i (toolbarOpened e) (toolboxOpened e) (blockSettingsOpened e)
    (inlineToolbarOpened e) (conversionToolbarOpened e) (flipperButtonFocused e)
    (caretAtStart e) (caretAtEnd e) (selectionCollapsed e) (caretCanNavigate e)
    (nextNode e).

Definition set_toolbars (tb box settings inline conversion : bool) (e : Editor) : Editor :=
  mkEditor (blocks e) (currentBlockIndex e) tb box settings inline conversion
    (flipperButtonFocused e) (caretAtStart e) (caretAtEnd e) (selectionCollapsed e)
    (caretCanNavigate e) (nextNode e).

Definition fresh (e : Editor) : Editor :=
  mkEditor (blocks e) (currentBlockIndex e) (toolbarOpened e) (toolboxOpened e)
    (blockSettingsOpened e) (inlineToolbarOpened e) (conversionToolbarOpened e)
    (flipperButtonFocused e) (caretAtStart e) (caretAtEnd e) (selectionCollapsed e)
    (caretCanNavigate e) (S (S (nextNode e))).

Definition deselect (b : Block) : Block :=
  mkBlock (name b) (holder b) (pluginsContent b) (tool b) (isEmpty b) false
    (mergeable b) (hasMedia b) (inputs b) (currentInput b) (firstInput b).

(** A new empty block of the given tool. *)
Definition newBlock (toolName : string) (n : Node) : Block :=
  mkBlock toolName n (S n) (mkTool false (String.eqb toolName "paragraph"))
    true false true false [S n] (Some (S n)) (Some (S n)).

Fixpoint remove_at {A} (n : nat) (l : list A) : list A :=
  match l, n with
  | [], _ => []
  | _ :: t, O => t
  | h :: t, S k => h :: remove_at k t
  end.

Fixpoint insert_at {A} (n : nat) (x : A) (l : list A) : list A :=
  match n, l with
  | O, _ => x :: l
  | S k, h :: t => h :: insert_at k x t
  | S _, [] => [x]
  end.

Definition removeBlock (index : option Z) (e : Editor) : Editor :=
  let i := match index with Some i => i | None => currentBlockIndex e end in
  let bs := remove_at (Z.to_nat i) (blocks e) in
  let cur := if i <=? currentBlockIndex e
             then Z.max 0 (currentBlockIndex e - 1) else currentBlockIndex e in
  set_blocks bs cur e.

Definition insertBlock (index : Z) (needToFocus : option bool) (toolName : option string)
    (e : Editor) : Block * Editor :=
  let b := newBlock (match toolName with Some t => t | None => "paragraph" end)
                    (nextNode e) in
  let bs := insert_at (Z.to_nat index) b (blocks e) in
  let cur := match needToFocus with
             | Some true => index
             | _ => if index <=? currentBlockIndex e
                    then currentBlockIndex e + 1 else currentBlockIndex e
             end in
  (b, fresh (set_blocks bs cur e)).

Definition moveBlock (toIndex : Z) (e : Editor) : Editor :=
  match js_index (blocks e) (currentBlockIndex e) with
  | Some b =>
      set_blocks (insert_at (Z.to_nat toIndex) b
                    (remove_at (Z.to_nat (currentBlockIndex e)) (blocks e)))
                 toIndex e
  | None => e
  end.

Fixpoint firstSelected (bs : list Block) (i : Z) : Z :=
  match bs with
  | [] => i
  | b :: t => if selected b then i else firstSelected t (i + 1)
  end.

Definition removeSelected (e : Editor) : Z * Editor :=
  let i := firstSelected (blocks e) 0 in
  (i, set_blocks (filter (fun b => negb (selected b)) (blocks e)) i e).

Definition blockOfNode (n : Node) (e : Editor) : option Block :=
  find (fun b => Nat.eqb (holder b) n || Nat.eqb (pluginsContent b) n
                 || existsb (Nat.eqb n) (inputs b)) (blocks e).

Definition performCall (c : Call Z) (e : Editor) : Editor :=
  match c with
  | Toolbar_close => set_toolbars false false false
                       (inlineToolbarOpened e) (conversionToolbarOpened e) e
  | Toolbar_moveAndOpen _ => set_toolbars true (toolboxOpened e) (blockSettingsOpened e)
                       (inlineToolbarOpened e) (conversionToolbarOpened e) e
  | Toolbox_open => set_toolbars (toolbarOpened e) true (blockSettingsOpened e)
                       (inlineToolbarOpened e) (conversionToolbarOpened e) e
  | BlockSettings_open => set_toolbars (toolbarOpened e) (toolboxOpened e) true
                       (inlineToolbarOpened e) (conversionToolbarOpened e) e
  | ConversionToolbar_close => set_toolbars (toolbarOpened e) (toolboxOpened e)
                       (blockSettingsOpened e) (inlineToolbarOpened e) false e
  | UI_closeAllToolbars => set_toolbars false false false false false e
  | BlockManager_removeBlock index => removeBlock index e
  | BlocksAPI_move toIndex => moveBlock toIndex e
  | BlockSelection_clearSelection _ =>
      set_blocks (map deselect (blocks e)) (currentBlockIndex e) e
  | _ => e
  end.

#[export] Instance Modules : EditorModules Z Editor := {
  BlockManager_currentBlock := fun e => js_index (blocks e) (currentBlockIndex e);
  BlockManager_currentBlockIndex := currentBlockIndex;
  BlockManager_previousBlock := fun e => js_index (blocks e) (currentBlockIndex e - 1);
  BlockManager_blocks := blocks;
  BlockManager_getBlockByChildNode := blockOfNode;
  do_insertDefaultBlockAtIndex := insertBlock;
  do_split := fun toolName e => insertBlock (currentBlockIndex e + 1) (Some true) (Some toolName) e;
  do_removeSelectedBlocks := removeSelected;
  do_mergeBlocks := fun _ _ e => (nextNode e, fresh (removeBlock None e));
  BlocksAPI_getCurrentBlockIndex := currentBlockIndex;
  BlocksAPI_getBlockByIndex := fun i e =>
    option_map (fun b => mkBlockAPI (name b) (holder b)) (js_index (blocks e) i);
  Toolbar_opened := toolbarOpened;
  Toolbox_opened := toolboxOpened;
  BlockSettings_opened := blockSettingsOpened;
  InlineToolbar_opened := inlineToolbarOpened;
  ConversionToolbar_opened := conversionToolbarOpened;
  UI_someToolbarOpened := fun e =>
    toolboxOpened e || blockSettingsOpened e || inlineToolbarOpened e
    || conversionToolbarOpened e;
  UI_someFlipperButtonFocused := flipperButtonFocused;
  Caret_isAtStart := caretAtStart;
  Caret_isAtEnd := caretAtEnd;
  do_navigateNext := fun e => (caretCanNavigate e, e);
  do_navigatePrevious := fun e => (caretCanNavigate e, e);
  SelectionUtils_isCollapsed := selectionCollapsed;
  BlockSelection_anyBlockSelected := fun e => existsb selected (blocks e);
  do_copySelectedBlocks := fun _ e => (nextNode e, fresh e);
  window_innerHeight := fun _ => 800;
  window_scrollY := fun _ => 0;
  offsetHeight := fun _ _ => 100;
  getBoundingClientRect := fun n _ => mkRect (Z.of_nat n * 100) 100;
  perform := performCall
}.

(** The key codes of the DOM, the printable keys of [_.isPrintableKey] and
    the keys the Flipper listens to. *)
Definition domKeyCodes : KeyCodes := mkKeyCodes 8 9 13 37 38 39 40.

Definition printable (keyCode : Z) : bool :=
  ((47 <? keyCode) && (keyCode <? 58))
  || (keyCode =? 32) || (keyCode =? 13) || (keyCode =? 229)
  || ((64 <? keyCode) && (keyCode <? 91))
  || ((95 <? keyCode) && (keyCode <? 112))
  || ((185 <? keyCode) && (keyCode <? 193))
  || ((218 <? keyCode) && (keyCode <? 223)).

Definition flipperKeys : list Z := [9; 37; 38; 40; 39; 13].

Definition paragraphConfig : Config := mkConfig "paragraph" false.

End Sim.

(** ** Concrete editors and events *)

Module Examples.
Import Sim.

Definition textBlock (toolName : string) (n : Node) (empty : bool) : Block :=
  mkBlock toolName n (S n) (mkTool false (String.eqb toolName "paragraph"))
    empty false true false [S n] (Some (S n)) (Some (S n)).

Definition paragraph : Block := textBlock "paragraph" 20%nat false.
Definition secondParagraph : Block := textBlock "paragraph" 24%nat false.
Definition emptyParagraph : Block := textBlock "paragraph" 22%nat true.
Definition listItem : Block := textBlock "list" 10%nat false.
Definition emptyListItem : Block := textBlock "list" 12%nat true.
Definition quote : Block := textBlock "quote" 40%nat false.

Definition selectedParagraph : Block :=
  mkBlock "paragraph" 26%nat 27%nat (mkTool false true) false true true false
    [27%nat] (Some 27%nat) (Some 27%nat).

(** An image block has media and no inputs. *)
Definition image : Block :=
  mkBlock "image" 30%nat 31%nat (mkTool false false) false false false true [] None None.

(** An editor with every toolbar closed and a collapsed selection. *)
Definition editor (bs : list Block) (index : Z) (atStart atEnd : bool) : Editor :=
  mkEditor bs index false false false false false false atStart atEnd true false 100%nat.

Definition key (code : Z) : KeyboardEvent := mkKey code false false false false.
Definition shiftKeyed (code : Z) : KeyboardEvent := mkKey code true false false false.
Definition shiftCmd (code : Z) : KeyboardEvent := mkKey code true true false false.

Definition enterKey : KeyboardEvent := key 13.
Definition backspaceKey : KeyboardEvent := key 8.
Definition tabKey : KeyboardEvent := key 9.
Definition letterA : KeyboardEvent := key 65.
Definition arrowDown : KeyboardEvent := key 40.
Definition shiftArrowDown : KeyboardEvent := shiftKeyed 40.
Definition shiftCmdArrowDown : KeyboardEvent := shiftCmd 40.
Definition cutEvent : ClipboardEvent := mkClip 0%nat.

(** A keydown in the reference editor, configured with "paragraph" as the
    default block. *)
Definition press (event : KeyboardEvent) (e : Editor) : Run Z Editor unit :=
  keydown domKeyCodes printable flipperKeys paragraphConfig event e.

(** A cut, followed by the settlement of the promise the copy returned. *)
Definition cutThenSettle (how : Settlement) (e : Editor) : list (Call Z) :=
  let r := handleCommandX cutEvent e in
  match calls r with
  | [_; Promise_then p _] => calls r ++ calls (settle p how (calls r) (final r))
  | _ => calls r
  end.

Definition listAtStart : Editor := editor [paragraph; listItem] 1 true false.
Definition listAtEnd : Editor := editor [paragraph; listItem] 1 false true.
Definition emptyListAtBothEnds : Editor := editor [paragraph; emptyListItem] 1 true true.
Definition quoteMidBlock : Editor := editor [paragraph; quote] 1 false false.
Definition emptySecondBlock : Editor := editor [paragraph; emptyParagraph] 1 true true.
Definition twoParagraphs : Editor := editor [paragraph; secondParagraph] 1 true false.
Definition emptyFirstBlock : Editor := editor [emptyParagraph] 0 true true.
Definition imageLast : Editor := editor [paragraph; image] 1 false false.
Definition caretAtEndOfFirst : Editor := editor [paragraph; secondParagraph] 0 false true.
Definition oneSelected : Editor := editor [paragraph; selectedParagraph] 1 false false.

End Examples.

(** ** Kinds of calls *)

(** The calls that add, remove, merge or reorder blocks. *)
Definition changesBlockList {num : Type} (c : Call num) : bool :=
  match c with
  | BlockManager_removeBlock _
  | BlockManager_removeSelectedBlocks
  | BlockManager_insertDefaultBlockAtIndex _ _ _
  | BlockManager_split _
  | BlockManager_mergeBlocks _ _
  | BlocksAPI_move _ => true
  | _ => false
  end.


(** The calls on [window] that scroll the page. *)
Definition scrollsWindow {num : Type} (c : Call num) : bool :=
  match c with
  | window_scrollTo _ _
  | window_scrollBy _ _ => true
  | _ => false
  end.

(** A call that leaves the list of blocks alone. *)
Definition keepsBlockList {num : Type} (c : Call num) : Prop :=
  changesBlockList c = false.

(** A call that neither reorders blocks nor scrolls the page. *)
Definition keepsBlockOrder {num : Type} (c : Call num) : Prop :=
  match c with
  | BlocksAPI_move _ => False
  | _ => scrollsWindow c = false
  end.

(** A call that leaves the cross-block selection alone. *)
Definition keepsCrossBlockSelection {num : Type} (c : Call num) : Prop :=
  match c with
  | CrossBlockSelection_toggleBlockSelectedState _ => False
  | _ => True
  end.

(** The image the Shift+Cmd shortcut moves, and where to: the conditions of
    lines 45-56 (with [delta] 1) and of lines 88-98 (with [delta] -1) under
    which [BlocksAPI.move] is reached. *)
Definition imageMoved {num St : Type} `{EditorModules num St}
    (delta : Z) (event : KeyboardEvent) (s : St) (i : Z) : Prop :=
  shiftKey event = true /\ metaKey event = true
  /\ (exists cb, BlocksAPI_getBlockByIndex (BlocksAPI_getCurrentBlockIndex s) s
                 = Some cb /\ api_name cb = "image")
  /\ (exists neighbour, BlocksAPI_getBlockByIndex i s = Some neighbour)
  /\ i = BlocksAPI_getCurrentBlockIndex s + delta.

(** ** More concrete editors and events *)

Module MoreExamples.
Import Sim Examples.

(** A text block that also holds media. *)
Definition figure : Block :=
  mkBlock "figure" 50%nat 51%nat (mkTool false false) false false true true
    [51%nat] (Some 51%nat) (Some 51%nat).

(** A block whose tool handles line breaks itself. *)
Definition code : Block :=
  mkBlock "code" 60%nat 61%nat (mkTool true false) false false false false
    [61%nat] (Some 61%nat) (Some 61%nat).

Definition shiftEnter : KeyboardEvent := shiftKeyed 13.
Definition ctrlA : KeyboardEvent := mkKey 65 false false true false.
Definition arrowRight : KeyboardEvent := key 39.
Definition arrowLeft : KeyboardEvent := key 37.
Definition shiftCmdArrowUp : KeyboardEvent := shiftCmd 38.

Definition rtlConfig : Config := mkConfig "paragraph" true.

Definition noBlocks : Editor := editor [] (-1) false false.
Definition figureAtStart : Editor := editor [paragraph; figure] 1 true false.
Definition codeMidBlock : Editor := editor [paragraph; code] 1 false false.
Definition caretAtStartOfFirst : Editor :=
  editor [paragraph; secondParagraph] 0 true false.
Definition imageFirst : Editor := editor [image; paragraph] 0 false false.

End MoreExamples.

(** ** Laws of the handler monad and of [switch] *)

Section Laws.
Context {num St : Type}.

Lemma run_eta {A} (r : Run num St A) :
  mkRun (outcome r) (final r) (calls r) = r.
Proof. destruct r; reflexivity. Qed.

Lemma bind_returned {A B} (m : M num St A) (f : A -> M num St B) s a :
  outcome (m s) = Returned a ->
  bind m f s =
    mkRun (outcome (f a (final (m s))))
          (final (f a (final (m s))))
          (calls (m s) ++ calls (f a (final (m s)))).
Proof.
  unfold bind. destruct (m s) as [o s1 l]; cbn. intros ->.
  destruct (f a s1); reflexivity.
Qed.

Lemma bind_thrown {A B} (m : M num St A) (f : A -> M num St B) s e :
  outcome (m s) = Thrown e ->
  bind m f s = mkRun (Thrown e) (final (m s)) (calls (m s)).
Proof.
  unfold bind. destruct (m s) as [o s1 l]; cbn. intros ->. reflexivity.
Qed.

Lemma bind_get {A B} (g : St -> A) (f : A -> M num St B) s :
  bind (get g) f s = f (g s) s.
Proof. unfold bind, get. destruct (f (g s) s); reflexivity. Qed.

Lemma bind_ret {A B} (a : A) (f : A -> M num St B) s :
  bind (ret a) f s = f a s.
Proof. unfold bind, ret. destruct (f a s); reflexivity. Qed.

Lemma bind_emit {B} (c : Call num) (f : unit -> M num St B) s :
  bind (emit c) f s =
    mkRun (outcome (f tt s)) (final (f tt s)) (c :: calls (f tt s)).
Proof. unfold bind, emit. destruct (f tt s); reflexivity. Qed.

Lemma bind_invoke {A B} (c : Call num) (g : St -> A * St) (f : A -> M num St B) s :
  bind (invoke c g) f s =
    mkRun (outcome (f (fst (g s)) (snd (g s))))
          (final (f (fst (g s)) (snd (g s))))
          (c :: calls (f (fst (g s)) (snd (g s)))).
Proof. unfold bind, invoke. destruct (f (fst (g s)) (snd (g s))); reflexivity. Qed.

Lemma bind_throw {A B} (e : JsError) (f : A -> M num St B) s :
  bind (throw e) f s = mkRun (Thrown e) s [].
Proof. reflexivity. Qed.

Lemma bind_assoc {A B C} (m : M num St A) (f : A -> M num St B)
    (g : B -> M num St C) s :
  bind (bind m f) g s = bind m (fun a => bind (f a) g) s.
Proof.
  unfold bind. destruct (m s) as [[a|e] s1 l1]; [|reflexivity].
  destruct (f a s1) as [[b|e] s2 l2]; [|reflexivity].
  destruct (g b s2) as [o s3 l3]. now rewrite app_assoc.
Qed.

Lemma bind_ext {A B} (m : M num St A) (f g : A -> M num St B) s :
  (forall a s', f a s' = g a s') -> bind m f s = bind m g s.
Proof.
  intros E. unfold bind. destruct (m s) as [[a|e] s1 l]; [|reflexivity].
  now rewrite E.
Qed.

(** A case that ends in [break] runs its body and leaves the [switch]. *)
Lemma run_cases_break (c : Z) (body : M num St unit) rest s :
  run_cases ((c, (body ;; ret Break)%js) :: rest) s = body s.
Proof.
  cbn. unfold bind, ret. destruct (body s) as [[[]|e] s1 l]; cbn;
    [now rewrite !app_nil_r | reflexivity].
Qed.

(** A case without [break] runs its body and then the cases below it. *)
Lemma run_cases_fall (c : Z) (body : M num St unit) rest s :
  run_cases ((c, (body ;; ret FallThrough)%js) :: rest) s
  = (body ;; run_cases rest)%js s.
Proof.
  cbn. unfold bind, ret. destruct (body s) as [[[]|e] s1 l]; cbn;
    [now rewrite !app_nil_r | reflexivity].
Qed.

Lemma switch_skip (v c : Z) body (rest : list (Z * M num St Completion)) :
  v <> c -> switch v ((c, body) :: rest) = switch v rest.
Proof. intros Hne. cbn. now apply Z.eqb_neq in Hne as ->. Qed.

Lemma switch_hit (v : Z) body (rest : list (Z * M num St Completion)) :
  switch v ((v, body) :: rest) = run_cases ((v, body) :: rest).
Proof. cbn [switch]. now rewrite Z.eqb_refl. Qed.

End Laws.

Lemma node_strict_eq_true (a b : option Node) :
  node_strict_eq a b = true <-> a = b.
Proof.
  destruct a as [x|], b as [y|]; cbn; split; intros E; try congruence.
  - apply Nat.eqb_eq in E. congruence.
  - injection E as ->. apply Nat.eqb_refl.
Qed.

(** ** What the handlers do *)

Section Handlers.
Context {num St : Type} `{JsNumber num} `{EditorModules num St}.
Variable keyCodes : KeyCodes.
Variable isPrintableKey : Z -> bool.
Variable Flipper_usedKeys : list Z.
Variable config : Config.

Local Abbreviation pre := (beforeKeydownProcessing keyCodes isPrintableKey).
Local Abbreviation onKeydown :=
  (keydown keyCodes isPrintableKey Flipper_usedKeys config).

Ltac bool_cases :=
  repeat match goal with
         | |- context [if ?b then _ else _] => destruct b eqn:?
         end.

(** *** Pre-processing *)

Lemma needToolbarClosing_run (event : KeyboardEvent) (w : St) :
  needToolbarClosing keyCodes event w =
    mkRun (Returned
             (negb (shiftKey event
                    || (keyCode event =? TAB keyCodes)
                    || ((keyCode event =? ENTER keyCodes) && Toolbox_opened w)
                    || ((keyCode event =? ENTER keyCodes) && BlockSettings_opened w)
                    || ((keyCode event =? ENTER keyCodes) && InlineToolbar_opened w)
                    || ((keyCode event =? ENTER keyCodes) && ConversionToolbar_opened w))))
          w [].
Proof. reflexivity. Qed.

Lemma pre_returns (event : KeyboardEvent) (w : St) :
  outcome (pre event w) = Returned tt.
Proof.
  unfold beforeKeydownProcessing.
  rewrite bind_returned with (a := negb (shiftKey event
                    || (keyCode event =? TAB keyCodes)
                    || ((keyCode event =? ENTER keyCodes) && Toolbox_opened w)
                    || ((keyCode event =? ENTER keyCodes) && BlockSettings_opened w)
                    || ((keyCode event =? ENTER keyCodes) && InlineToolbar_opened w)
                    || ((keyCode event =? ENTER keyCodes) && ConversionToolbar_opened w)))
    by (rewrite needToolbarClosing_run; reflexivity).
  rewrite needToolbarClosing_run. cbn [outcome final calls].
  bool_cases; reflexivity.
Qed.

(** With shift held the pre-processing does nothing. *)
Lemma pre_shift (event : KeyboardEvent) (w : St) :
  shiftKey event = true -> pre event w = mkRun (Returned tt) w [].
Proof.
  intros Hs. unfold beforeKeydownProcessing, bind.
  rewrite needToolbarClosing_run, Hs. reflexivity.
Qed.

(** On Tab the pre-processing does nothing. *)
Lemma pre_tab (event : KeyboardEvent) (w : St) :
  keyCode event = TAB keyCodes -> pre event w = mkRun (Returned tt) w [].
Proof.
  intros Hk. unfold beforeKeydownProcessing, bind.
  rewrite needToolbarClosing_run, Hk, Z.eqb_refl, orb_true_r. reflexivity.
Qed.

(** The pre-processing only ever closes toolbars and clears focus and
    selection. *)
Lemma pre_calls (event : KeyboardEvent) (w : St) :
  calls (pre event w) = []
  \/ calls (pre event w) = [Toolbar_close; ConversionToolbar_close]
  \/ calls (pre event w) =
       [Toolbar_close; ConversionToolbar_close; BlockManager_clearFocused;
        BlockSelection_clearSelection (Key event)].
Proof.
  unfold beforeKeydownProcessing, bind. rewrite needToolbarClosing_run.
  bool_cases; cbn; auto.
Qed.

(** C5.  The pre-processing step of every keydown returns normally.  For a
    printable key with none of ctrl, meta, alt and shift held it closes the
    toolbar and the conversion toolbar and clears block focus and block
    selection, in this order, except in the cases it skips: on Tab, and on
    Enter while the toolbox, the block settings, the inline toolbar or the
    conversion toolbar is open, it calls nothing and leaves the editor as it
    was. *)
Theorem beforeKeydownProcessing_closes_or_skips (event : KeyboardEvent) (w : St) :
  let r := beforeKeydownProcessing keyCodes isPrintableKey event w in
  let panelOpen :=
    Toolbox_opened w || BlockSettings_opened w
    || InlineToolbar_opened w || ConversionToolbar_opened w in
  outcome r = Returned tt
  /\ (isPrintableKey (keyCode event) = true ->
      ctrlKey event = false -> metaKey event = false ->
      altKey event = false -> shiftKey event = false ->
      keyCode event <> TAB keyCodes ->
      (keyCode event = ENTER keyCodes -> panelOpen = false) ->
      calls r = [Toolbar_close; ConversionToolbar_close;
                 BlockManager_clearFocused;
                 BlockSelection_clearSelection (Key event)])
  /\ (keyCode event = TAB keyCodes -> calls r = [] /\ final r = w)
  /\ (keyCode event = ENTER keyCodes -> panelOpen = true ->
      calls r = [] /\ final r = w).
Proof.
  cbv zeta. split; [apply pre_returns|]. split; [|split].
  - intros Hp Hc Hm Ha Hs Htab Hent.
    unfold beforeKeydownProcessing, bind. rewrite needToolbarClosing_run.
    rewrite Hp, Hc, Hm, Ha, Hs. apply Z.eqb_neq in Htab. rewrite Htab.
    destruct (keyCode event =? ENTER keyCodes) eqn:E.
    + apply Z.eqb_eq in E. specialize (Hent E).
      apply orb_false_iff in Hent as [Hent Hconv].
      apply orb_false_iff in Hent as [Hent Hinl].
      apply orb_false_iff in Hent as [Hbox Hset].
      rewrite Hbox, Hset, Hinl, Hconv. reflexivity.
    + reflexivity.
  - intros Hk. rewrite pre_tab by assumption. split; reflexivity.
  - intros Hk Hopen.
    unfold beforeKeydownProcessing, bind. rewrite needToolbarClosing_run.
    rewrite Hk, Z.eqb_refl. cbn [andb].
    destruct (shiftKey event), (ENTER keyCodes =? TAB keyCodes),
      (Toolbox_opened w), (BlockSettings_opened w), (InlineToolbar_opened w),
      (ConversionToolbar_opened w); cbn in Hopen |- *;
      try discriminate; split; reflexivity.
Qed.

(** *** Drag handlers *)

(** C10.  [dragOver] and [dragLeave] dereference the looked-up block without
    a check: each returns normally exactly when the event target resolves to
    a block, and then its only call sets [dropTarget] on that block; when the
    target resolves to no block it throws a TypeError before any call. *)
Theorem drag_handlers_need_a_block (event : DragEvent) (w : St) :
  ((exists b, BlockManager_getBlockByChildNode (target event) w = Some b)
   <-> outcome (dragOver event w) = Returned tt)
  /\ ((exists b, BlockManager_getBlockByChildNode (target event) w = Some b)
      <-> outcome (dragLeave event w) = Returned tt)
  /\ (forall b, BlockManager_getBlockByChildNode (target event) w = Some b ->
        calls (dragOver event w) = [Block_set_dropTarget b true]
        /\ calls (dragLeave event w) = [Block_set_dropTarget b false])
  /\ (BlockManager_getBlockByChildNode (target event) w = None ->
        (exists msg, outcome (dragOver event w) = Thrown (TypeError msg))
        /\ (exists msg, outcome (dragLeave event w) = Thrown (TypeError msg))
        /\ calls (dragOver event w) = [] /\ calls (dragLeave event w) = []
        /\ final (dragOver event w) = w /\ final (dragLeave event w) = w).
Proof.
  unfold dragOver, dragLeave. rewrite !bind_get.
  destruct (BlockManager_getBlockByChildNode (target event) w) as [b|] eqn:E.
  - cbn [deref]. rewrite !bind_ret. cbn.
    split; [split; eauto|]. split; [split; eauto|].
    split; [|discriminate].
    intros b' [= <-]. split; reflexivity.
  - cbn [deref]. rewrite !bind_throw. cbn.
    split; [split; [intros [b' Hb]|]; discriminate|].
    split; [split; [intros [b' Hb]|]; discriminate|].
    split; [discriminate|]. intros _. repeat split; eauto.
Qed.

(** *** Dispatch by key code *)

(** Whatever a handler does after the pre-processing starts from the state
    and follows the calls the pre-processing leaves. *)
Lemma after_pre {A} (event : KeyboardEvent) (body : M num St A) (w : St) :
  (pre event ;; body)%js w =
    let w1 := final (pre event w) in
    mkRun (outcome (body w1)) (final (body w1))
          (calls (pre event w) ++ calls (body w1)).
Proof. apply bind_returned with (a := tt), pre_returns. Qed.

Lemma keydown_BACKSPACE (event : KeyboardEvent) (w : St) :
  keyCode event = BACKSPACE keyCodes ->
  onKeydown event w = (pre event ;; backspace event)%js w.
Proof.
  intros Hk. unfold keydown. apply bind_ext. intros _ s.
  now rewrite Hk, switch_hit, run_cases_break.
Qed.

Lemma keydown_ENTER (event : KeyboardEvent) (w : St) :
  keyCode event = ENTER keyCodes ->
  ENTER keyCodes <> BACKSPACE keyCodes ->
  onKeydown event w = (pre event ;; enter config event)%js w.
Proof.
  intros Hk Hb. unfold keydown. apply bind_ext. intros _ s.
  now rewrite Hk, switch_skip, switch_hit, run_cases_break by assumption.
Qed.

Lemma keydown_DOWN (event : KeyboardEvent) (w : St) :
  keyCode event = DOWN keyCodes ->
  DOWN keyCodes <> BACKSPACE keyCodes ->
  DOWN keyCodes <> ENTER keyCodes ->
  onKeydown event w =
    (pre event ;; moveImageDown event ;;
     arrowRightAndDown keyCodes Flipper_usedKeys config event)%js w.
Proof.
  intros Hk Hb He. unfold keydown. apply bind_ext. intros _ s.
  rewrite Hk, !switch_skip, switch_hit, run_cases_fall by assumption.
  apply bind_ext. intros _ s'. now rewrite run_cases_break.
Qed.

Lemma keydown_UP (event : KeyboardEvent) (w : St) :
  keyCode event = UP keyCodes ->
  UP keyCodes <> BACKSPACE keyCodes ->
  UP keyCodes <> ENTER keyCodes ->
  UP keyCodes <> DOWN keyCodes ->
  UP keyCodes <> RIGHT keyCodes ->
  onKeydown event w =
    (pre event ;; moveImageUp event ;;
     arrowLeftAndUp keyCodes Flipper_usedKeys config event)%js w.
Proof.
  intros Hk Hb He Hd Hr. unfold keydown. apply bind_ext. intros _ s.
  rewrite Hk, !switch_skip, switch_hit, run_cases_fall by assumption.
  apply bind_ext. intros _ s'. now rewrite run_cases_break.
Qed.

Lemma keydown_TAB (event : KeyboardEvent) (w : St) :
  keyCode event = TAB keyCodes ->
  TAB keyCodes <> BACKSPACE keyCodes ->
  TAB keyCodes <> ENTER keyCodes ->
  TAB keyCodes <> DOWN keyCodes ->
  TAB keyCodes <> RIGHT keyCodes ->
  TAB keyCodes <> UP keyCodes ->
  TAB keyCodes <> LEFT keyCodes ->
  onKeydown event w = (pre event ;; tabPressed event)%js w.
Proof.
  intros Hk Hb He Hd Hr Hu Hl. unfold keydown. apply bind_ext. intros _ s.
  now rewrite Hk, !switch_skip, switch_hit, run_cases_break by assumption.
Qed.

(** Pairwise distinct key codes, as inequalities. *)
Lemma keyCodes_distinct_neq :
  NoDup (keyCodes_list keyCodes) ->
  ENTER keyCodes <> BACKSPACE keyCodes
  /\ (DOWN keyCodes <> BACKSPACE keyCodes /\ DOWN keyCodes <> ENTER keyCodes)
  /\ (UP keyCodes <> BACKSPACE keyCodes /\ UP keyCodes <> ENTER keyCodes
      /\ UP keyCodes <> DOWN keyCodes /\ UP keyCodes <> RIGHT keyCodes)
  /\ (TAB keyCodes <> BACKSPACE keyCodes /\ TAB keyCodes <> ENTER keyCodes
      /\ TAB keyCodes <> DOWN keyCodes /\ TAB keyCodes <> RIGHT keyCodes
      /\ TAB keyCodes <> UP keyCodes /\ TAB keyCodes <> LEFT keyCodes).
Proof.
  unfold keyCodes_list. intros Hnd.
  repeat match goal with
         | Hn : NoDup (_ :: _) |- _ => inversion Hn; clear Hn; subst
         end.
  cbn [In] in *. intuition congruence.
Qed.

Ltac unfold_monad :=
  unfold deref; unfold bind, get, ret, invoke, call, emit, throw.

Ltac simp_run :=
  repeat (cbn -[includes js_index Z.eqb String.eqb Z.add Z.sub];
          rewrite ?String.eqb_refl, ?Z.eqb_refl;
          repeat match goal with
                 | Heq : ?x = _ |- context [?x] => rewrite Heq
                 end).

(** *** Enter *)

Lemma enter_splits (event : KeyboardEvent) (s : St) (cb : Block) :
  BlockManager_currentBlock s = Some cb ->
  js_index (BlockManager_blocks s) (BlockManager_currentBlockIndex s) = Some cb ->
  isLineBreaksEnabled (tool cb) = false ->
  UI_someToolbarOpened s && UI_someFlipperButtonFocused s = false ->
  shiftKey event = false ->
  Caret_isAtStart s && negb (hasMedia cb) = false ->
  Caret_isAtEnd s = false ->
  let toolName :=
    if includes String.eqb DEFAULT_TYPE_ACCEPT (name cb)
    then name cb else "paragraph" in
  let created := fst (do_split toolName s) in
  outcome (enter config event s) = Returned tt
  /\ calls (enter config event s) =
       [BlockManager_split toolName;
        Caret_setToBlock (Some created) None;
        Toolbar_moveAndOpen (Some created);
        event_preventDefault (Key event)].
Proof.
  intros Hcur Hidx Hlb Hflip Hshift Hstart Hend. cbv zeta.
  unfold enter. unfold_monad.
  destruct (Caret_isAtStart s) eqn:Ea; cbn in Hstart; simp_run;
    split; reflexivity.
Qed.

Lemma enter_at_start_of_list (event : KeyboardEvent) (s : St) (cb : Block) :
  BlockManager_currentBlock s = Some cb ->
  isLineBreaksEnabled (tool cb) = false ->
  UI_someToolbarOpened s && UI_someFlipperButtonFocused s = false ->
  shiftKey event = false ->
  name cb = "list" ->
  Caret_isAtStart s = true ->
  hasMedia cb = false ->
  let index := BlockManager_currentBlockIndex s in
  let inserted :=
    fst (do_insertDefaultBlockAtIndex index (Some false)
           (Some (defaultBlock config)) s) in
  outcome (enter config event s) = Returned tt
  /\ calls (enter config event s) =
       [BlockManager_insertDefaultBlockAtIndex index (Some false)
          (Some (defaultBlock config));
        Caret_setToBlock (Some inserted) None;
        Toolbar_moveAndOpen (Some inserted);
        event_preventDefault (Key event)].
Proof.
  intros Hcur Hlb Hflip Hshift Hname Hstart Hmedia. cbv zeta.
  unfold enter. unfold_monad. simp_run. split; reflexivity.
Qed.

Lemma enter_at_end_of_list (event : KeyboardEvent) (s : St) (cb : Block) :
  BlockManager_currentBlock s = Some cb ->
  isLineBreaksEnabled (tool cb) = false ->
  UI_someToolbarOpened s && UI_someFlipperButtonFocused s = false ->
  shiftKey event = false ->
  name cb = "list" ->
  Caret_isAtStart s && negb (hasMedia cb) = false ->
  Caret_isAtEnd s = true ->
  let index := BlockManager_currentBlockIndex s in
  let inserted :=
    fst (do_insertDefaultBlockAtIndex (index + 1) (Some false) (Some "list") s) in
  outcome (enter config event s) = Returned tt
  /\ calls (enter config event s) =
       [BlockManager_insertDefaultBlockAtIndex (index + 1) (Some false)
          (Some "list");
        Caret_setToBlock (Some inserted) None;
        Toolbar_moveAndOpen (Some inserted);
        event_preventDefault (Key event)].
Proof.
  intros Hcur Hlb Hflip Hshift Hname Hstart Hend. cbv zeta.
  unfold enter. unfold_monad.
  destruct (Caret_isAtStart s) eqn:Ea; cbn in Hstart; simp_run;
    split; reflexivity.
Qed.

Lemma includes_In (l : list string) (x : string) :
  includes String.eqb l x = true <-> In x l.
Proof.
  unfold includes. rewrite existsb_exists. split.
  - intros [y [Hy E]]. apply String.eqb_eq in E. now subst.
  - intros Hx. exists x. split; [assumption | apply String.eqb_refl].
Qed.

(** The run of an Enter keydown: pre-processing, then [enter]. *)
Lemma keydown_ENTER_run (event : KeyboardEvent) (w : St) :
  NoDup (keyCodes_list keyCodes) ->
  keyCode event = ENTER keyCodes ->
  let w1 := final (pre event w) in
  outcome (onKeydown event w) = outcome (enter config event w1)
  /\ calls (onKeydown event w)
     = calls (pre event w) ++ calls (enter config event w1).
Proof.
  intros Hnd Hk. apply keyCodes_distinct_neq in Hnd as [Hne _].
  rewrite keydown_ENTER, after_pre by assumption. split; reflexivity.
Qed.

(** C1, as the code has it.  On a handled Enter keydown (the tool does not
    enable line breaks, no open toolbar has a focused flipper button, shift
    is not held) on a block named "list": with the caret at block start and
    no media in the block, the block inserted above, at the current index,
    is of the configured default type [config.defaultBlock], whatever the
    type of the block; otherwise, with the caret at block end, the block
    appended at the next index is of type "list".  In both cases the caret
    and the toolbar go to the inserted block. *)
Theorem enter_on_list_block (event : KeyboardEvent) (w : St) (cb : Block) :
  NoDup (keyCodes_list keyCodes) ->
  keyCode event = ENTER keyCodes ->
  let w1 := final (beforeKeydownProcessing keyCodes isPrintableKey event w) in
  BlockManager_currentBlock w1 = Some cb ->
  isLineBreaksEnabled (tool cb) = false ->
  UI_someToolbarOpened w1 && UI_someFlipperButtonFocused w1 = false ->
  shiftKey event = false ->
  name cb = "list" ->
  let index := BlockManager_currentBlockIndex w1 in
  let r := keydown keyCodes isPrintableKey Flipper_usedKeys config event w in
  (Caret_isAtStart w1 = true -> hasMedia cb = false ->
   let toolName := Some (defaultBlock config) in
   let inserted :=
     fst (do_insertDefaultBlockAtIndex index (Some false) toolName w1) in
   outcome r = Returned tt
   /\ calls r =
        calls (beforeKeydownProcessing keyCodes isPrintableKey event w)
        ++ [BlockManager_insertDefaultBlockAtIndex index (Some false) toolName;
            Caret_setToBlock (Some inserted) None;
            Toolbar_moveAndOpen (Some inserted);
            event_preventDefault (Key event)])
  /\ (Caret_isAtStart w1 && negb (hasMedia cb) = false ->
      Caret_isAtEnd w1 = true ->
      let inserted :=
        fst (do_insertDefaultBlockAtIndex (index + 1) (Some false)
               (Some "list") w1) in
      outcome r = Returned tt
      /\ calls r =
           calls (beforeKeydownProcessing keyCodes isPrintableKey event w)
           ++ [BlockManager_insertDefaultBlockAtIndex (index + 1) (Some false)
                 (Some "list");
               Caret_setToBlock (Some inserted) None;
               Toolbar_moveAndOpen (Some inserted);
               event_preventDefault (Key event)]).
Proof.
  intros Hnd Hk w1 Hcur Hlb Hflip Hshift Hname index r.
  destruct (keydown_ENTER_run event w Hnd Hk) as [Ho Hc].
  fold w1 in Ho, Hc. subst r. rewrite Ho, Hc. split.
  - intros Hstart Hmedia.
    destruct (enter_at_start_of_list event w1 cb) as [-> ->]; auto.
  - intros Hstart Hend.
    destruct (enter_at_end_of_list event w1 cb) as [-> ->]; auto.
Qed.

(** C2.  On a handled Enter keydown with the caret neither at block start
    nor at block end, the current block is split: [BlockManager.split] is
    called with the block's own type name exactly when that name is in
    [DEFAULT_TYPE_ACCEPT], and with "paragraph" otherwise; then the caret is
    set to the block [split] returns and the toolbar is moved to it and
    opened. *)
Theorem enter_mid_block_splits (event : KeyboardEvent) (w : St) (cb : Block) :
  NoDup (keyCodes_list keyCodes) ->
  keyCode event = ENTER keyCodes ->
  let w1 := final (beforeKeydownProcessing keyCodes isPrintableKey event w) in
  BlockManager_currentBlock w1 = Some cb ->
  js_index (BlockManager_blocks w1) (BlockManager_currentBlockIndex w1) = Some cb ->
  isLineBreaksEnabled (tool cb) = false ->
  UI_someToolbarOpened w1 && UI_someFlipperButtonFocused w1 = false ->
  shiftKey event = false ->
  Caret_isAtStart w1 = false ->
  Caret_isAtEnd w1 = false ->
  let r := keydown keyCodes isPrintableKey Flipper_usedKeys config event w in
  exists toolName : string,
    let created := fst (do_split toolName w1) in
    outcome r = Returned tt
    /\ calls r =
         calls (beforeKeydownProcessing keyCodes isPrintableKey event w)
         ++ [BlockManager_split toolName;
             Caret_setToBlock (Some created) None;
             Toolbar_moveAndOpen (Some created);
             event_preventDefault (Key event)]
    /\ (toolName = name cb <-> In (name cb) DEFAULT_TYPE_ACCEPT)
    /\ (~ In (name cb) DEFAULT_TYPE_ACCEPT -> toolName = "paragraph").
Proof.
  intros Hnd Hk w1 Hcur Hidx Hlb Hflip Hshift Hstart Hend r.
  destruct (keydown_ENTER_run event w Hnd Hk) as [Ho Hc].
  fold w1 in Ho, Hc. subst r. rewrite Ho, Hc.
  destruct (enter_splits event w1 cb) as [-> ->]; auto.
  { now rewrite Hstart. }
  eexists. split; [reflexivity|]. split; [reflexivity|].
  destruct (includes String.eqb DEFAULT_TYPE_ACCEPT (name cb)) eqn:E.
  - apply includes_In in E. split; [tauto|]. intros Hn. contradiction.
  - assert (Hn : ~ In (name cb) DEFAULT_TYPE_ACCEPT).
    { intros Hin. apply includes_In in Hin. congruence. }
    split; [|reflexivity]. split; [|contradiction].
    intros Heq. exfalso. apply Hn. rewrite <- Heq. cbn. auto.
Qed.

(** *** Backspace *)

Lemma removedByBackspace_true (b : Block) :
  removedByBackspace b = true
  <-> selected b = true \/ (isEmpty b = true /\ currentInput b = firstInput b).
Proof.
  unfold removedByBackspace.
  rewrite orb_true_iff, andb_true_iff, node_strict_eq_true. reflexivity.
Qed.

Lemma inputlessMedia_true (previousBlock : option Block) :
  inputlessMedia previousBlock = true
  <-> exists p, previousBlock = Some p /\ inputs p = []
                /\ (name p = "image" \/ name p = "gallery").
Proof.
  destruct previousBlock as [p|]; cbn.
  - rewrite andb_true_iff, orb_true_iff, !String.eqb_eq, Z.eqb_eq. split.
    + intros [Hl Hn]. exists p. repeat split; auto.
      destruct (inputs p); [reflexivity | discriminate].
    + intros [q [[= <-] [Hi Hn]]]. rewrite Hi. auto.
  - split; [discriminate | intros [p [Hp _]]; discriminate].
Qed.

Lemma backspace_removes (event : KeyboardEvent) (s : St) (cb : Block) :
  BlockManager_currentBlock s = Some cb ->
  removedByBackspace cb = true ->
  let index := BlockManager_currentBlockIndex s in
  let removal :=
    if inputlessMedia (BlockManager_previousBlock s)
    then Some (index - 1) else None in
  let s2 := perform (BlockManager_removeBlock removal) s in
  outcome (backspace event s) = Returned tt
  /\ calls (backspace event s) =
       [event_preventDefault (Key event);
        BlockManager_removeBlock removal;
        Caret_setToBlock (BlockManager_currentBlock s2)
          (Some (if index =? 0 then START else END));
        Toolbar_close;
        BlockSelection_clearSelection (Key event)].
Proof.
  intros Hcur Hrm. cbv zeta. unfold backspace. unfold_monad. simp_run.
  destruct (inputlessMedia (BlockManager_previousBlock s)); simp_run;
    split; reflexivity.
Qed.

Lemma keydown_BACKSPACE_run (event : KeyboardEvent) (w : St) :
  keyCode event = BACKSPACE keyCodes ->
  let w1 := final (pre event w) in
  outcome (onKeydown event w) = outcome (backspace event w1)
  /\ calls (onKeydown event w)
     = calls (pre event w) ++ calls (backspace event w1).
Proof.
  intros Hk. rewrite keydown_BACKSPACE, after_pre by assumption.
  split; reflexivity.
Qed.

(** C3.  On a Backspace keydown where the current block is selected, or is
    empty with its current input being its first input, the handler prevents
    the default action and removes a block: the previous block when that one
    exists, has no inputs and is named "image" or "gallery", and the current
    block otherwise.  It then sets the caret to what is the current block
    after the removal, at END when the index of the original block was not
    zero and at START when it was zero, closes the toolbar and clears the
    block selection. *)
Theorem backspace_removes_block (event : KeyboardEvent) (w : St) (cb : Block) :
  keyCode event = BACKSPACE keyCodes ->
  let w1 := final (beforeKeydownProcessing keyCodes isPrintableKey event w) in
  BlockManager_currentBlock w1 = Some cb ->
  selected cb = true \/ (isEmpty cb = true /\ currentInput cb = firstInput cb) ->
  let index := BlockManager_currentBlockIndex w1 in
  let mediaBefore :=
    exists p, BlockManager_previousBlock w1 = Some p /\ inputs p = []
              /\ (name p = "image" \/ name p = "gallery") in
  let r := keydown keyCodes isPrintableKey Flipper_usedKeys config event w in
  exists (removal : option Z) (position : Position),
    let w2 := perform (BlockManager_removeBlock removal) w1 in
    outcome r = Returned tt
    /\ calls r =
         calls (beforeKeydownProcessing keyCodes isPrintableKey event w)
         ++ [event_preventDefault (Key event);
             BlockManager_removeBlock removal;
             Caret_setToBlock (BlockManager_currentBlock w2) (Some position);
             Toolbar_close;
             BlockSelection_clearSelection (Key event)]
    /\ (mediaBefore -> removal = Some (index - 1))
    /\ (~ mediaBefore -> removal = None)
    /\ (index <> 0 -> position = END)
    /\ (index = 0 -> position = START).
Proof.
  intros Hk w1 Hcur Hrm index mediaBefore r.
  apply removedByBackspace_true in Hrm.
  destruct (keydown_BACKSPACE_run event w Hk) as [Ho Hc].
  fold w1 in Ho, Hc. subst r. rewrite Ho, Hc.
  destruct (backspace_removes event w1 cb Hcur Hrm) as [-> ->].
  do 2 eexists. split; [reflexivity|]. split; [reflexivity|].
  fold index. repeat split.
  - intros Hm. apply inputlessMedia_true in Hm. now rewrite Hm.
  - intros Hm. destruct (inputlessMedia (BlockManager_previousBlock w1)) eqn:E;
      [|reflexivity]. apply inputlessMedia_true in E. contradiction.
  - intros Hi. apply Z.eqb_neq in Hi. now rewrite Hi.
  - intros ->. reflexivity.
Qed.

Section MergeAttempt.
Variables (event : KeyboardEvent) (s : St) (cb tb : Block).
Hypothesis Hcur : BlockManager_currentBlock s = Some cb.
Hypothesis Hprev : BlockManager_previousBlock s = Some tb.
Hypothesis Hkeep : removedByBackspace cb = false.
Hypothesis Hstart : Caret_isAtStart s = true.
Hypothesis Hcollapsed : SelectionUtils_isCollapsed s = true.
Hypothesis Hinput : node_strict_eq (currentInput cb) (firstInput cb) = true.
Hypothesis Hnotfirst : (BlockManager_currentBlockIndex s =? 0) = false.

Lemma backspace_attempts_merge :
  backspace event s =
    (emit (event_preventDefault (Key event)) ;; mergeBlocks)%js s.
Proof.
  unfold backspace. rewrite bind_get, Hcur. cbn [deref]. rewrite bind_ret, Hkeep.
  rewrite bind_get, Hstart, andb_false_r.
  rewrite bind_get, Hnotfirst, bind_get, Hcollapsed, Hinput. reflexivity.
Qed.

Lemma backspace_merges :
  String.eqb (name cb) (name tb) = true ->
  mergeable tb = true ->
  let s1 := perform (Caret_createShadow (pluginsContent tb)) s in
  let p := fst (do_mergeBlocks tb cb s1) in
  outcome (backspace event s) = Returned tt
  /\ calls (backspace event s) =
       [event_preventDefault (Key event);
        Caret_createShadow (pluginsContent tb);
        BlockManager_mergeBlocks tb cb;
        Promise_then p (afterMerge tb)].
Proof.
  intros Hname Hm. cbv zeta. rewrite backspace_attempts_merge.
  unfold mergeBlocks. unfold_monad. simp_run. split; reflexivity.
Qed.

Lemma backspace_removes_target :
  negb (String.eqb (name cb) (name tb)) || negb (mergeable tb) = true ->
  (Z.of_nat (List.length (inputs tb)) =? 0) || isEmpty tb = true ->
  let index := BlockManager_currentBlockIndex s in
  let s1 := perform (BlockManager_removeBlock (Some (index - 1))) s in
  outcome (backspace event s) = Returned tt
  /\ calls (backspace event s) =
       [event_preventDefault (Key event);
        BlockManager_removeBlock (Some (index - 1));
        Caret_setToBlock (BlockManager_currentBlock s1) None;
        Toolbar_close].
Proof.
  intros Hdiff Hgone. cbv zeta. rewrite backspace_attempts_merge.
  unfold mergeBlocks. unfold_monad. simp_run. split; reflexivity.
Qed.

Lemma backspace_navigates :
  negb (String.eqb (name cb) (name tb)) || negb (mergeable tb) = true ->
  (Z.of_nat (List.length (inputs tb)) =? 0) || isEmpty tb = false ->
  let navigated := fst (do_navigatePrevious s) in
  outcome (backspace event s) = Returned tt
  /\ calls (backspace event s) =
       event_preventDefault (Key event) :: Caret_navigatePrevious
       :: (if navigated then [Toolbar_close] else []).
Proof.
  intros Hdiff Hthere. cbv zeta. rewrite backspace_attempts_merge.
  unfold mergeBlocks. unfold_monad. simp_run.
  destruct (fst (do_navigatePrevious s)); split; reflexivity.
Qed.

End MergeAttempt.

Lemma no_merge_in_pre (event : KeyboardEvent) (w : St) (t b : Block) :
  ~ In (BlockManager_mergeBlocks t b) (calls (pre event w)).
Proof.
  destruct (pre_calls event w) as [-> | [-> | ->]]; cbn;
    intuition discriminate.
Qed.

(** C4.  On a Backspace-triggered merge attempt (the block is neither
    selected nor empty, the caret is at its start, the selection is
    collapsed, the current input is the first input and the block is not the
    first one) the handler prevents the default action and then: when the
    current and the previous block have the same type name and the previous
    block is mergeable, it merges them ([BlockManager.mergeBlocks], with the
    previous block as target); otherwise, when the previous block has no
    inputs or is empty, it removes the previous block, sets the caret to the
    current block and closes the toolbar; otherwise it navigates the caret
    to the previous block.  [BlockManager.mergeBlocks] is called only in the
    first case. *)
Theorem backspace_merge_attempt (event : KeyboardEvent) (w : St) (cb tb : Block) :
  keyCode event = BACKSPACE keyCodes ->
  let w1 := final (beforeKeydownProcessing keyCodes isPrintableKey event w) in
  BlockManager_currentBlock w1 = Some cb ->
  BlockManager_previousBlock w1 = Some tb ->
  selected cb = false ->
  isEmpty cb = false ->
  Caret_isAtStart w1 = true ->
  SelectionUtils_isCollapsed w1 = true ->
  currentInput cb = firstInput cb ->
  BlockManager_currentBlockIndex w1 <> 0 ->
  let index := BlockManager_currentBlockIndex w1 in
  let before := calls (beforeKeydownProcessing keyCodes isPrintableKey event w) in
  let r := keydown keyCodes isPrintableKey Flipper_usedKeys config event w in
  outcome r = Returned tt
  /\ (name cb = name tb -> mergeable tb = true ->
      let w2 := perform (Caret_createShadow (pluginsContent tb)) w1 in
      let p := fst (do_mergeBlocks tb cb w2) in
      calls r =
        before ++ [event_preventDefault (Key event);
                   Caret_createShadow (pluginsContent tb);
                   BlockManager_mergeBlocks tb cb;
                   Promise_then p (afterMerge tb)])
  /\ (name cb <> name tb \/ mergeable tb = false ->
      (inputs tb = [] \/ isEmpty tb = true ->
       let w2 := perform (BlockManager_removeBlock (Some (index - 1))) w1 in
       calls r =
         before ++ [event_preventDefault (Key event);
                    BlockManager_removeBlock (Some (index - 1));
                    Caret_setToBlock (BlockManager_currentBlock w2) None;
                    Toolbar_close])
      /\ (inputs tb <> [] -> isEmpty tb = false ->
          let navigated := fst (do_navigatePrevious w1) in
          calls r =
            before ++ event_preventDefault (Key event) :: Caret_navigatePrevious
                      :: (if navigated then [Toolbar_close] else [])))
  /\ (forall t b, In (BlockManager_mergeBlocks t b) (calls r) ->
      t = tb /\ b = cb /\ name cb = name tb /\ mergeable tb = true).
Proof.
  intros Hk w1 Hcur Hprev Hsel Hempty Hstart Hcoll Hinput Hidx index before r.
  assert (Hkeep : removedByBackspace cb = false).
  { unfold removedByBackspace. now rewrite Hsel, Hempty. }
  apply node_strict_eq_true in Hinput. apply Z.eqb_neq in Hidx.
  destruct (keydown_BACKSPACE_run event w Hk) as [Ho Hc].
  fold w1 in Ho, Hc. subst r before. rewrite Ho, Hc.
  pose proof (backspace_merges event w1 cb tb Hcur Hprev Hkeep Hstart Hcoll
                Hinput Hidx) as Hmerge.
  pose proof (backspace_removes_target event w1 cb tb Hcur Hprev Hkeep Hstart
                Hcoll Hinput Hidx) as Hremove.
  pose proof (backspace_navigates event w1 cb tb Hcur Hprev Hkeep Hstart Hcoll
                Hinput Hidx) as Hnav.
  cbv zeta in Hmerge, Hremove, Hnav. fold index in Hremove.
  assert (Hlen : (Z.of_nat (List.length (inputs tb)) =? 0) = true
                 <-> inputs tb = []).
  { rewrite Z.eqb_eq. destruct (inputs tb); cbn; split;
      congruence || discriminate || lia. }
  destruct (String.eqb (name cb) (name tb)) eqn:En;
    [apply String.eqb_eq in En | apply String.eqb_neq in En];
    destruct (mergeable tb) eqn:Em.
  1: { destruct Hmerge as [Hmo Hmc]; [reflexivity | reflexivity |].
       rewrite Hmo, Hmc. split; [reflexivity|]. split; [reflexivity|].
       split; [intros [Hn | Hn]; congruence|].
       intros t b Hin. apply in_app_or in Hin as [Hin | Hin].
       - now apply no_merge_in_pre in Hin.
       - cbn in Hin. destruct Hin as [Hin | [Hin | [Hin | [Hin | []]]]];
           try discriminate. injection Hin as <- <-. auto. }
  all: specialize (Hremove eq_refl); specialize (Hnav eq_refl).
  all: destruct ((Z.of_nat (List.length (inputs tb)) =? 0) || isEmpty tb) eqn:Eg.
  all: try (destruct Hremove as [Hro Hrc]; [reflexivity|]; clear Hnav).
  all: try (destruct Hnav as [Hro Hrc]; [reflexivity|]; clear Hremove).
  all: rewrite Hro, Hrc; split; [reflexivity|].
  all: split; [intros; congruence|].
  all: split.
  all: try (intros _; split; [ reflexivity || (intros [Hi | He];
              [apply Hlen in Hi | ]; apply orb_false_iff in Eg as [E1 E2];
              congruence)
            | reflexivity || (intros Hi He; exfalso;
              apply orb_true_iff in Eg as [E1 | E2];
              [apply Hlen in E1; contradiction | congruence]) ]).
  all: intros t b Hin; apply in_app_or in Hin as [Hin | Hin];
    [now apply no_merge_in_pre in Hin|]; exfalso; cbn in Hin;
    destruct (fst (do_navigatePrevious w1)); cbn in Hin;
    intuition discriminate.
Qed.

(** *** Tab *)

Lemma tabPressed_run (event : KeyboardEvent) (s : St) (cb : Block) :
  let s1 := perform (BlockSelection_clearSelection (Key event)) s in
  BlockManager_currentBlock s1 = Some cb ->
  let blocked :=
    negb (isEmpty cb)
    && (ConversionToolbar_opened s1
        || (negb (SelectionUtils_isCollapsed s1) && InlineToolbar_opened s1)) in
  let s2 :=
    if Toolbar_opened s1 then s1
    else perform (Toolbar_moveAndOpen None) (perform (Block_set_focused cb true) s1) in
  outcome (tabPressed event s) = Returned tt
  /\ calls (tabPressed event s) =
       event_preventDefault (Key event)
       :: BlockSelection_clearSelection (Key event)
       :: (if isEmpty cb && isDefault (tool cb) then
             (if Toolbar_opened s1 then [] else [Toolbar_moveAndOpen None])
             ++ [Toolbox_open]
           else if blocked then []
           else
             (if Toolbar_opened s1 then []
              else [Block_set_focused cb true; Toolbar_moveAndOpen None])
             ++ (if BlockSettings_opened s2 then [] else [BlockSettings_open])).
Proof.
  intros s1 Hcur. cbv zeta.
  unfold tabPressed, activateToolbox, activateBlockSettings. unfold_monad.
  cbn -[Z.eqb String.eqb]. fold s1. clearbody s1. rewrite Hcur.
  destruct (isEmpty cb), (isDefault (tool cb)), (ConversionToolbar_opened s1),
    (SelectionUtils_isCollapsed s1), (InlineToolbar_opened s1),
    (Toolbar_opened s1) eqn:Et;
    simp_run;
    repeat match goal with
           | |- context [BlockSettings_opened ?x] =>
               destruct (BlockSettings_opened x)
           end; cbn; split; reflexivity.
Qed.

(** C6.  On a Tab keydown the handler prevents the default action and
    clears the block selection first.  With a current block it then opens
    the toolbox when the block is empty and its tool is the default one;
    otherwise it opens neither panel when, on a non-empty block, the
    conversion toolbar is open or the inline toolbar is open with a
    non-collapsed selection; otherwise it opens the block settings (the call
    is skipped only when they are open already). *)
Theorem tab_opens_toolbox_or_settings (event : KeyboardEvent) (w : St) (cb : Block) :
  NoDup (keyCodes_list keyCodes) ->
  keyCode event = TAB keyCodes ->
  let w1 := perform (BlockSelection_clearSelection (Key event)) w in
  BlockManager_currentBlock w1 = Some cb ->
  let otherToolbarOwnsFocus :=
    negb (isEmpty cb)
    && (ConversionToolbar_opened w1
        || (negb (SelectionUtils_isCollapsed w1) && InlineToolbar_opened w1)) in
  let w2 :=
    if Toolbar_opened w1 then w1
    else perform (Toolbar_moveAndOpen None) (perform (Block_set_focused cb true) w1) in
  let r := keydown keyCodes isPrintableKey Flipper_usedKeys config event w in
  exists rest,
    outcome r = Returned tt
    /\ calls r =
         event_preventDefault (Key event)
         :: BlockSelection_clearSelection (Key event) :: rest
    /\ (isEmpty cb = true -> isDefault (tool cb) = true ->
        rest = (if Toolbar_opened w1 then [] else [Toolbar_moveAndOpen None])
               ++ [Toolbox_open])
    /\ (isEmpty cb && isDefault (tool cb) = false ->
        otherToolbarOwnsFocus = true -> rest = [])
    /\ (isEmpty cb && isDefault (tool cb) = false ->
        otherToolbarOwnsFocus = false ->
        rest = (if Toolbar_opened w1 then []
                else [Block_set_focused cb true; Toolbar_moveAndOpen None])
               ++ (if BlockSettings_opened w2 then [] else [BlockSettings_open])).
Proof.
  intros Hnd Hk w1 Hcur blocked w2 r.
  apply keyCodes_distinct_neq in Hnd as (_ & _ & _ & Ht).
  destruct Ht as (? & ? & ? & ? & ? & ?).
  subst r. rewrite keydown_TAB, after_pre, pre_tab by assumption.
  cbn [final calls app].
  destruct (tabPressed_run event w cb Hcur) as [Ho Hc]. fold w1 in Hc.
  fold blocked in Hc. fold w2 in Hc. rewrite Ho, Hc.
  eexists. split; [reflexivity|]. split; [reflexivity|].
  split; [|split].
  - intros -> ->. reflexivity.
  - intros -> ->. reflexivity.
  - intros -> ->. reflexivity.
Qed.

(** *** Arrows *)

Lemma afterNavigation_returns (event : KeyboardEvent) (b : bool) (s : St) :
  outcome (afterNavigation event b s) = Returned tt.
Proof. unfold afterNavigation. unfold_monad. destruct b; reflexivity. Qed.

Lemma arrowRightAndDown_returns (event : KeyboardEvent) (s : St) :
  outcome (arrowRightAndDown keyCodes Flipper_usedKeys config event s) = Returned tt.
Proof.
  unfold arrowRightAndDown, afterNavigation. unfold_monad.
  cbn -[Z.eqb isFlipperCombination]. bool_cases; reflexivity.
Qed.

Lemma arrowLeftAndUp_returns (event : KeyboardEvent) (s : St) :
  outcome (arrowLeftAndUp keyCodes Flipper_usedKeys config event s) = Returned tt.
Proof.
  unfold arrowLeftAndUp, afterNavigation. unfold_monad.
  cbn -[Z.eqb isFlipperCombination]. bool_cases; reflexivity.
Qed.

Lemma moveImageDown_last (event : KeyboardEvent) (s : St) (cb : BlockAPI) :
  shiftKey event = true -> metaKey event = true ->
  BlocksAPI_getBlockByIndex (BlocksAPI_getCurrentBlockIndex s) s = Some cb ->
  api_name cb = "image" ->
  BlocksAPI_getBlockByIndex (BlocksAPI_getCurrentBlockIndex s + 1) s = None ->
  moveImageDown event s =
    mkRun (Thrown (Error "Unable to move Block down since it is already the last"))
          s [].
Proof.
  intros Hs Hm Hcur Hname Hnext. unfold moveImageDown. unfold_monad.
  simp_run. reflexivity.
Qed.

Lemma moveImageDown_moves (event : KeyboardEvent) (s : St) (cb nb : BlockAPI) :
  shiftKey event = true -> metaKey event = true ->
  BlocksAPI_getBlockByIndex (BlocksAPI_getCurrentBlockIndex s) s = Some cb ->
  api_name cb = "image" ->
  BlocksAPI_getBlockByIndex (BlocksAPI_getCurrentBlockIndex s + 1) s = Some nb ->
  exists offset s',
    moveImageDown event s =
      mkRun (Returned tt) s'
            [window_scrollTo (num_of_Z 0) offset;
             BlocksAPI_move (BlocksAPI_getCurrentBlockIndex s + 1)].
Proof.
  intros Hs Hm Hcur Hname Hnext. unfold moveImageDown. unfold_monad.
  simp_run. do 2 eexists. reflexivity.
Qed.

Lemma moveImageUp_first (event : KeyboardEvent) (s : St) (cb : BlockAPI) :
  shiftKey event = true -> metaKey event = true ->
  BlocksAPI_getBlockByIndex (BlocksAPI_getCurrentBlockIndex s) s = Some cb ->
  api_name cb = "image" ->
  BlocksAPI_getCurrentBlockIndex s = 0
  \/ BlocksAPI_getBlockByIndex (BlocksAPI_getCurrentBlockIndex s - 1) s = None ->
  moveImageUp event s =
    mkRun (Thrown (Error "Unable to move Block up since it is already the first"))
          s [].
Proof.
  intros Hs Hm Hcur Hname Hfirst. unfold moveImageUp. unfold_monad.
  simp_run.
  destruct (BlocksAPI_getBlockByIndex (BlocksAPI_getCurrentBlockIndex s - 1) s)
    as [pb|] eqn:Eprev; [|reflexivity].
  destruct Hfirst as [Hz | Hn]; [|discriminate].
  cbn. rewrite Hz. reflexivity.
Qed.

Lemma moveImageUp_moves (event : KeyboardEvent) (s : St) (cb pb : BlockAPI) :
  shiftKey event = true -> metaKey event = true ->
  BlocksAPI_getBlockByIndex (BlocksAPI_getCurrentBlockIndex s) s = Some cb ->
  api_name cb = "image" ->
  BlocksAPI_getCurrentBlockIndex s <> 0 ->
  BlocksAPI_getBlockByIndex (BlocksAPI_getCurrentBlockIndex s - 1) s = Some pb ->
  exists offset s',
    moveImageUp event s =
      mkRun (Returned tt) s'
            [window_scrollBy (num_of_Z 0) offset;
             BlocksAPI_move (BlocksAPI_getCurrentBlockIndex s - 1)].
Proof.
  intros Hs Hm Hcur Hname Hnz Hprev. apply Z.eqb_neq in Hnz.
  unfold moveImageUp. unfold_monad.
  simp_run. do 2 eexists. reflexivity.
Qed.

(** C8.  On Shift+Cmd+ArrowDown on a block named "image": when there is no
    next block the handler throws and nothing has been called, so the editor
    and the order of its blocks are as before; otherwise it scrolls and
    moves the block to the next index.  On Shift+Cmd+ArrowUp: when the block
    is the first one or has no previous block the handler throws, again
    before any call; otherwise it scrolls and moves the block to the
    previous index. *)
Theorem shift_cmd_arrow_on_image (event : KeyboardEvent) (w : St) (cb : BlockAPI) :
  NoDup (keyCodes_list keyCodes) ->
  shiftKey event = true ->
  metaKey event = true ->
  let index := BlocksAPI_getCurrentBlockIndex w in
  BlocksAPI_getBlockByIndex index w = Some cb ->
  api_name cb = "image" ->
  let r := keydown keyCodes isPrintableKey Flipper_usedKeys config event w in
  (keyCode event = DOWN keyCodes ->
   (BlocksAPI_getBlockByIndex (index + 1) w = None ->
    outcome r
    = Thrown (Error "Unable to move Block down since it is already the last")
    /\ calls r = [] /\ final r = w)
   /\ (forall nb, BlocksAPI_getBlockByIndex (index + 1) w = Some nb ->
       exists offset rest,
         outcome r = Returned tt
         /\ calls r = window_scrollTo (num_of_Z 0) offset
                      :: BlocksAPI_move (index + 1) :: rest))
  /\ (keyCode event = UP keyCodes ->
      (index = 0 \/ BlocksAPI_getBlockByIndex (index - 1) w = None ->
       outcome r
       = Thrown (Error "Unable to move Block up since it is already the first")
       /\ calls r = [] /\ final r = w)
      /\ (index <> 0 ->
          forall pb, BlocksAPI_getBlockByIndex (index - 1) w = Some pb ->
          exists offset rest,
            outcome r = Returned tt
            /\ calls r = window_scrollBy (num_of_Z 0) offset
                         :: BlocksAPI_move (index - 1) :: rest)).
Proof.
  intros Hnd Hs Hm index Hcur Hname r.
  apply keyCodes_distinct_neq in Hnd as (_ & [Hd1 Hd2] & (Hu1 & Hu2 & Hu3 & Hu4) & _).
  subst r. split; intros Hk.
  - rewrite keydown_DOWN, after_pre, pre_shift by assumption.
    cbn [final calls app]. split.
    + intros Hnext.
      rewrite bind_thrown
        with (e := Error "Unable to move Block down since it is already the last");
        rewrite moveImageDown_last with (cb := cb) by assumption;
        repeat split.
    + intros nb Hnext.
      destruct (moveImageDown_moves event w cb nb) as (offset & s' & Hrun);
        try assumption.
      rewrite bind_returned with (a := tt) by (rewrite Hrun; reflexivity).
      rewrite Hrun. cbn [outcome final calls app].
      exists offset. eexists. split; [apply arrowRightAndDown_returns|].
      reflexivity.
  - rewrite keydown_UP, after_pre, pre_shift by assumption.
    cbn [final calls app]. split.
    + intros Hfirst.
      rewrite bind_thrown
        with (e := Error "Unable to move Block up since it is already the first");
        rewrite moveImageUp_first with (cb := cb) by assumption;
        repeat split.
    + intros Hnz pb Hprev.
      destruct (moveImageUp_moves event w cb pb) as (offset & s' & Hrun);
        try assumption.
      rewrite bind_returned with (a := tt) by (rewrite Hrun; reflexivity).
      rewrite Hrun. cbn [outcome final calls app].
      exists offset. eexists. split; [apply arrowLeftAndUp_returns|].
      reflexivity.
Qed.

Lemma arrowRightAndDown_on_DOWN (event : KeyboardEvent) (s : St) :
  keyCode event = DOWN keyCodes ->
  let consumed :=
    UI_someToolbarOpened s && isFlipperCombination keyCodes Flipper_usedKeys event in
  let s1 := perform Toolbar_close (perform BlockManager_clearFocused s) in
  let crossBlock :=
    shiftKey event && (Caret_isAtEnd s1 || BlockSelection_anyBlockSelected s1) in
  calls (arrowRightAndDown keyCodes Flipper_usedKeys config event s) =
    if consumed then []
    else
      BlockManager_clearFocused :: Toolbar_close
      :: (if crossBlock then [CrossBlockSelection_toggleBlockSelectedState None]
          else [Caret_navigateNext;
                if fst (do_navigateNext s1) then event_preventDefault (Key event)
                else delay refreshCurrentInput 20;
                BlockSelection_clearSelection (Key event)]).
Proof.
  intros Hk. cbv zeta. unfold arrowRightAndDown, afterNavigation. unfold_monad.
  cbn -[Z.eqb isFlipperCombination]. rewrite Hk, Z.eqb_refl.
  destruct (UI_someToolbarOpened s
            && isFlipperCombination keyCodes Flipper_usedKeys event);
    [reflexivity|].
  cbn -[Z.eqb].
  destruct (shiftKey event); cbn -[Z.eqb];
    [destruct (Caret_isAtEnd _ || BlockSelection_anyBlockSelected _);
     cbn -[Z.eqb]; [reflexivity|] |];
    destruct (fst (do_navigateNext _)); reflexivity.
Qed.

Lemma arrowLeftAndUp_on_UP (event : KeyboardEvent) (s : St) :
  keyCode event = UP keyCodes ->
  let consumed :=
    UI_someToolbarOpened s && isFlipperCombination keyCodes Flipper_usedKeys event in
  let s0 := if UI_someToolbarOpened s then perform UI_closeAllToolbars s else s in
  let s1 := perform Toolbar_close (perform BlockManager_clearFocused s0) in
  let crossBlock :=
    shiftKey event && (Caret_isAtStart s1 || BlockSelection_anyBlockSelected s1) in
  calls (arrowLeftAndUp keyCodes Flipper_usedKeys config event s) =
    if consumed then []
    else
      (if UI_someToolbarOpened s then [UI_closeAllToolbars] else [])
      ++ BlockManager_clearFocused :: Toolbar_close
         :: (if crossBlock
             then [CrossBlockSelection_toggleBlockSelectedState (Some false)]
             else [Caret_navigatePrevious;
                   if fst (do_navigatePrevious s1)
                   then event_preventDefault (Key event)
                   else delay refreshCurrentInput 20;
                   BlockSelection_clearSelection (Key event)]).
Proof.
  intros Hk. cbv zeta. unfold arrowLeftAndUp, afterNavigation. unfold_monad.
  cbn -[Z.eqb isFlipperCombination]. rewrite Hk, Z.eqb_refl.
  destruct (UI_someToolbarOpened s) eqn:Eo;
    destruct (isFlipperCombination keyCodes Flipper_usedKeys event);
    cbn -[Z.eqb]; try reflexivity.
  all: destruct (shiftKey event); cbn -[Z.eqb];
    [destruct (Caret_isAtStart _ || BlockSelection_anyBlockSelected _);
     cbn -[Z.eqb]; [reflexivity|] |];
    destruct (fst (do_navigatePrevious _)); reflexivity.
Qed.

(** C9, as the code has it.  On an ArrowDown keydown whose [DOWN] case
    completes (it throws only for Shift+Cmd on an image block without a
    next block, or without a current block) the [switch] falls through into
    the [RIGHT] case, so [arrowRightAndDown] runs after it.  That handler
    calls nothing when a toolbar is open and the key is a Flipper
    combination; otherwise it clears block focus and closes the toolbar and
    then either, with shift held and the caret at the end of the block or
    some block selected, toggles the cross-block selection and leaves the
    block selection as it is, or navigates the caret and clears the block
    selection.  ArrowUp is symmetric: it falls through into the [LEFT] case
    and [arrowLeftAndUp] runs, which first closes all toolbars when one is
    open. *)
Theorem arrow_down_up_fall_through (event : KeyboardEvent) (w : St) :
  NoDup (keyCodes_list keyCodes) ->
  let r := keydown keyCodes isPrintableKey Flipper_usedKeys config event w in
  let before := beforeKeydownProcessing keyCodes isPrintableKey event w in
  let w1 := final before in
  (keyCode event = DOWN keyCodes ->
   outcome (moveImageDown event w1) = Returned tt ->
   let w2 := final (moveImageDown event w1) in
   let handler := arrowRightAndDown keyCodes Flipper_usedKeys config event w2 in
   let consumed :=
     UI_someToolbarOpened w2
     && isFlipperCombination keyCodes Flipper_usedKeys event in
   let w3 := perform Toolbar_close (perform BlockManager_clearFocused w2) in
   let crossBlock :=
     shiftKey event && (Caret_isAtEnd w3 || BlockSelection_anyBlockSelected w3) in
   outcome r = Returned tt
   /\ calls r = calls before ++ calls (moveImageDown event w1) ++ calls handler
   /\ calls handler =
        if consumed then []
        else
          BlockManager_clearFocused :: Toolbar_close
          :: (if crossBlock
              then [CrossBlockSelection_toggleBlockSelectedState None]
              else [Caret_navigateNext;
                    if fst (do_navigateNext w3)
                    then event_preventDefault (Key event)
                    else delay refreshCurrentInput 20;
                    BlockSelection_clearSelection (Key event)]))
  /\ (keyCode event = UP keyCodes ->
      outcome (moveImageUp event w1) = Returned tt ->
      let w2 := final (moveImageUp event w1) in
      let handler := arrowLeftAndUp keyCodes Flipper_usedKeys config event w2 in
      let consumed :=
        UI_someToolbarOpened w2
        && isFlipperCombination keyCodes Flipper_usedKeys event in
      let w2' :=
        if UI_someToolbarOpened w2 then perform UI_closeAllToolbars w2 else w2 in
      let w3 := perform Toolbar_close (perform BlockManager_clearFocused w2') in
      let crossBlock :=
        shiftKey event
        && (Caret_isAtStart w3 || BlockSelection_anyBlockSelected w3) in
      outcome r = Returned tt
      /\ calls r = calls before ++ calls (moveImageUp event w1) ++ calls handler
      /\ calls handler =
           if consumed then []
           else
             (if UI_someToolbarOpened w2 then [UI_closeAllToolbars] else [])
             ++ BlockManager_clearFocused :: Toolbar_close
                :: (if crossBlock
                    then [CrossBlockSelection_toggleBlockSelectedState (Some false)]
                    else [Caret_navigatePrevious;
                          if fst (do_navigatePrevious w3)
                          then event_preventDefault (Key event)
                          else delay refreshCurrentInput 20;
                          BlockSelection_clearSelection (Key event)])).
Proof.
  intros Hnd r before w1.
  apply keyCodes_distinct_neq in Hnd as (_ & [Hd1 Hd2] & (Hu1 & Hu2 & Hu3 & Hu4) & _).
  subst r before w1. split; intros Hk Hdone.
  - rewrite keydown_DOWN, after_pre by assumption. cbv zeta.
    rewrite bind_returned with (a := tt) by assumption.
    cbn [outcome final calls].
    split; [apply arrowRightAndDown_returns|]. split; [reflexivity|].
    now apply arrowRightAndDown_on_DOWN.
  - rewrite keydown_UP, after_pre by assumption. cbv zeta.
    rewrite bind_returned with (a := tt) by assumption.
    cbn [outcome final calls].
    split; [apply arrowLeftAndUp_returns|]. split; [reflexivity|].
    now apply arrowLeftAndUp_on_UP.
Qed.

(** *** Cut *)

(** C7, as the code has it.  On a cut event with no block selected the
    handler does nothing.  With a selection it copies the selected blocks
    and registers a reaction on the promise the copy returns.  When that
    promise is fulfilled the reaction removes the selected blocks, inserts a
    default block at the index the removal returns, sets the caret to the
    start of the inserted block and clears the selection, in this order;
    when the promise is rejected nothing more is called. *)
Theorem cut_copies_then_replaces (event : ClipboardEvent) (w : St) :
  let r := handleCommandX event w in
  (BlockSelection_anyBlockSelected w = false ->
   outcome r = Returned tt /\ calls r = [] /\ final r = w)
  /\ (BlockSelection_anyBlockSelected w = true ->
      let p := fst (do_copySelectedBlocks (Clip event) w) in
      outcome r = Returned tt
      /\ calls r = [BlockSelection_copySelectedBlocks (Clip event);
                    Promise_then p (afterCopy (Clip event))]
      /\ forall later : St,
           let index := fst (do_removeSelectedBlocks later) in
           let inserted :=
             fst (do_insertDefaultBlockAtIndex index (Some true) None
                    (snd (do_removeSelectedBlocks later))) in
           (outcome (settle p Fulfilled (calls r) later) = Returned tt
            /\ calls (settle p Fulfilled (calls r) later) =
                 [BlockManager_removeSelectedBlocks;
                  BlockManager_insertDefaultBlockAtIndex index (Some true) None;
                  Caret_setToBlock (Some inserted) (Some START);
                  BlockSelection_clearSelection (Clip event)])
           /\ calls (settle p Rejected (calls r) later) = []
           /\ final (settle p Rejected (calls r) later) = later).
Proof.
  cbv zeta. unfold handleCommandX. rewrite bind_get. split; intros Hsel;
    rewrite Hsel; cbn [negb].
  - repeat split.
  - unfold_monad. cbn. split; [reflexivity|]. split; [reflexivity|].
    intros later. rewrite Nat.eqb_refl. cbn. repeat split.
Qed.

End Handlers.

(** ** The handlers on concrete editors *)

Section Concrete.
Import Sim Examples.

Lemma domKeyCodes_distinct : NoDup (keyCodes_list domKeyCodes).
Proof. repeat constructor; cbn; intuition discriminate. Qed.

Lemma enter_on_list_block_witness :
  outcome (press enterKey listAtEnd) = Returned tt
  /\ calls (press enterKey listAtEnd) =
       calls (beforeKeydownProcessing domKeyCodes printable enterKey listAtEnd)
       ++ [BlockManager_insertDefaultBlockAtIndex 2 (Some false) (Some "list");
           Caret_setToBlock (Some (newBlock "list" 100%nat)) None;
           Toolbar_moveAndOpen (Some (newBlock "list" 100%nat));
           event_preventDefault (Key enterKey)].
Proof.
  exact (proj2 (enter_on_list_block domKeyCodes printable flipperKeys
                  paragraphConfig enterKey listAtEnd listItem
                  domKeyCodes_distinct eq_refl eq_refl eq_refl eq_refl
                  eq_refl eq_refl)
               eq_refl eq_refl).
Defined.

(** C1 as stated fails.  Enter at the start of a "list" block inserts a
    "paragraph" block (the configured default) above it, and no "list" block
    anywhere; and at the start of an empty "list" block, where the caret is
    at the end as well, the new block still goes above, at the current
    index, and is a "paragraph". *)
Lemma enter_on_list_block_counterexample :
  (let w1 := final (beforeKeydownProcessing domKeyCodes printable enterKey
                      listAtStart) in
   BlockManager_currentBlock w1 = Some listItem
   /\ name listItem = "list"
   /\ isLineBreaksEnabled (tool listItem) = false
   /\ UI_someFlipperButtonFocused w1 = false
   /\ shiftKey enterKey = false
   /\ Caret_isAtStart w1 = true
   /\ In (BlockManager_insertDefaultBlockAtIndex 1 (Some false) (Some "paragraph"))
         (calls (press enterKey listAtStart))
   /\ forall index needToFocus,
        ~ In (BlockManager_insertDefaultBlockAtIndex index needToFocus (Some "list"))
             (calls (press enterKey listAtStart)))
  /\ (let w1 := final (beforeKeydownProcessing domKeyCodes printable enterKey
                         emptyListAtBothEnds) in
      BlockManager_currentBlock w1 = Some emptyListItem
      /\ name emptyListItem = "list"
      /\ BlockManager_currentBlockIndex w1 = 1
      /\ Caret_isAtEnd w1 = true
      /\ forall index needToFocus toolName,
           In (BlockManager_insertDefaultBlockAtIndex index needToFocus toolName)
              (calls (press enterKey emptyListAtBothEnds)) ->
           index = 1 /\ toolName = Some "paragraph").
Proof.
  split.
  - cbv zeta. repeat (split; [reflexivity|]). split.
    + vm_compute. tauto.
    + intros index needToFocus Hin. vm_compute in Hin.
      repeat (destruct Hin as [Hin | Hin]; [discriminate Hin|]).
      exact Hin.
  - cbv zeta. repeat (split; [reflexivity|]).
    intros index needToFocus toolName Hin. vm_compute in Hin.
    repeat (destruct Hin as [Hin | Hin];
            [try discriminate Hin; injection Hin as <- <- <-; split; reflexivity|]).
    destruct Hin.
Qed.

Lemma enter_mid_block_splits_witness :
  exists toolName : string,
    outcome (press enterKey quoteMidBlock) = Returned tt
    /\ calls (press enterKey quoteMidBlock) =
         calls (beforeKeydownProcessing domKeyCodes printable enterKey quoteMidBlock)
         ++ [BlockManager_split toolName;
             Caret_setToBlock (Some (newBlock toolName 100%nat)) None;
             Toolbar_moveAndOpen (Some (newBlock toolName 100%nat));
             event_preventDefault (Key enterKey)]
    /\ (toolName = "quote" <-> In "quote" DEFAULT_TYPE_ACCEPT)
    /\ (~ In "quote" DEFAULT_TYPE_ACCEPT -> toolName = "paragraph").
Proof.
  exact (enter_mid_block_splits domKeyCodes printable flipperKeys paragraphConfig
           enterKey quoteMidBlock quote domKeyCodes_distinct
           eq_refl eq_refl eq_refl eq_refl eq_refl eq_refl eq_refl eq_refl).
Defined.

Lemma backspace_removes_block_witness :
  exists (removal : option Z) (position : Position),
    outcome (press backspaceKey emptySecondBlock) = Returned tt
    /\ calls (press backspaceKey emptySecondBlock) =
         [event_preventDefault (Key backspaceKey);
          BlockManager_removeBlock removal;
          Caret_setToBlock
            (BlockManager_currentBlock
               (perform (BlockManager_removeBlock removal) emptySecondBlock))
            (Some position);
          Toolbar_close;
          BlockSelection_clearSelection (Key backspaceKey)]
    /\ ((exists p, BlockManager_previousBlock emptySecondBlock = Some p
                   /\ inputs p = []
                   /\ (name p = "image" \/ name p = "gallery")) ->
        removal = Some (1 - 1))
    /\ (~ (exists p, BlockManager_previousBlock emptySecondBlock = Some p
                     /\ inputs p = []
                     /\ (name p = "image" \/ name p = "gallery")) ->
        removal = None)
    /\ (1 <> 0 -> position = END)
    /\ (1 = 0 -> position = START).
Proof.
  exact (backspace_removes_block domKeyCodes printable flipperKeys paragraphConfig
           backspaceKey emptySecondBlock emptyParagraph
           eq_refl eq_refl (or_intror (conj eq_refl eq_refl))).
Defined.

Lemma backspace_merge_attempt_witness :
  calls (press backspaceKey twoParagraphs) =
    [event_preventDefault (Key backspaceKey);
     Caret_createShadow (pluginsContent paragraph);
     BlockManager_mergeBlocks paragraph secondParagraph;
     Promise_then 100%nat (afterMerge paragraph)].
Proof.
  refine (proj1 (proj2 (backspace_merge_attempt domKeyCodes printable flipperKeys
                          paragraphConfig backspaceKey twoParagraphs
                          secondParagraph paragraph
                          eq_refl eq_refl eq_refl eq_refl eq_refl eq_refl
                          eq_refl eq_refl _))
                eq_refl eq_refl).
  cbn. lia.
Defined.

Lemma beforeKeydownProcessing_closes_or_skips_witness :
  calls (beforeKeydownProcessing domKeyCodes printable letterA twoParagraphs) =
    [Toolbar_close; ConversionToolbar_close; BlockManager_clearFocused;
     BlockSelection_clearSelection (Key letterA)].
Proof.
  refine (proj1 (proj2 (beforeKeydownProcessing_closes_or_skips
                          domKeyCodes printable letterA twoParagraphs))
                eq_refl eq_refl eq_refl eq_refl eq_refl _ _).
  - cbn. lia.
  - cbn. discriminate.
Defined.

Lemma tab_opens_toolbox_or_settings_witness :
  exists rest,
    outcome (press tabKey emptyFirstBlock) = Returned tt
    /\ calls (press tabKey emptyFirstBlock) =
         event_preventDefault (Key tabKey)
         :: BlockSelection_clearSelection (Key tabKey) :: rest
    /\ rest = [Toolbar_moveAndOpen None; Toolbox_open].
Proof.
  assert (Hcur : BlockManager_currentBlock
                   (perform (BlockSelection_clearSelection (Key tabKey))
                      emptyFirstBlock) = Some emptyParagraph)
    by reflexivity.
  destruct (tab_opens_toolbox_or_settings domKeyCodes printable flipperKeys
              paragraphConfig tabKey emptyFirstBlock emptyParagraph
              domKeyCodes_distinct eq_refl Hcur)
    as (rest & Ho & Hc & Hbox & _).
  exists rest. split; [exact Ho|]. split; [exact Hc|].
  exact (Hbox eq_refl eq_refl).
Defined.

Lemma cut_copies_then_replaces_witness :
  calls (handleCommandX cutEvent oneSelected) =
    [BlockSelection_copySelectedBlocks (Clip cutEvent);
     Promise_then 100%nat (afterCopy (Clip cutEvent))].
Proof.
  exact (proj1 (proj2 (proj2 (cut_copies_then_replaces cutEvent oneSelected)
                         eq_refl))).
Defined.

(** C7 as stated fails when the copy settles by rejection: a block is
    selected, the copy is made, its promise is rejected, and no block is
    removed or inserted afterwards. *)
Lemma cut_copies_then_replaces_counterexample :
  BlockSelection_anyBlockSelected oneSelected = true
  /\ cutThenSettle Rejected oneSelected =
       [BlockSelection_copySelectedBlocks (Clip cutEvent);
        Promise_then 100%nat (afterCopy (Clip cutEvent))]
  /\ ~ In BlockManager_removeSelectedBlocks (cutThenSettle Rejected oneSelected)
  /\ In BlockManager_removeSelectedBlocks (cutThenSettle Fulfilled oneSelected).
Proof.
  split; [reflexivity|]. split; [reflexivity|]. split.
  - intros Hin. vm_compute in Hin.
    repeat (destruct Hin as [Hin | Hin]; [discriminate Hin|]). exact Hin.
  - vm_compute. tauto.
Qed.

Lemma shift_cmd_arrow_on_image_witness :
  outcome (press shiftCmdArrowDown imageLast)
  = Thrown (Error "Unable to move Block down since it is already the last")
  /\ calls (press shiftCmdArrowDown imageLast) = []
  /\ final (press shiftCmdArrowDown imageLast) = imageLast.
Proof.
  exact (proj1 (proj1 (shift_cmd_arrow_on_image domKeyCodes printable flipperKeys
                         paragraphConfig shiftCmdArrowDown imageLast
                         (mkBlockAPI "image" 30%nat)
                         domKeyCodes_distinct eq_refl eq_refl eq_refl eq_refl)
                      eq_refl)
               eq_refl).
Defined.

Lemma arrow_down_up_fall_through_witness :
  calls (arrowRightAndDown domKeyCodes flipperKeys paragraphConfig arrowDown
           caretAtEndOfFirst) =
    [BlockManager_clearFocused; Toolbar_close; Caret_navigateNext;
     delay refreshCurrentInput 20;
     BlockSelection_clearSelection (Key arrowDown)].
Proof.
  exact (proj2 (proj2 (proj1 (arrow_down_up_fall_through domKeyCodes printable
                                flipperKeys paragraphConfig arrowDown
                                caretAtEndOfFirst domKeyCodes_distinct)
                             eq_refl eq_refl))).
Defined.

(** C9 as stated fails.  Shift+ArrowDown with the caret at the end of a
    block and no toolbar open: no Flipper consumes the key and the arrow
    handler runs, but it toggles the cross-block selection and does not
    clear the block selection.  And Shift+Cmd+ArrowDown on an image block
    that is the last one throws in the [DOWN] case: nothing falls through
    and the arrow handler makes no call. *)
Lemma arrow_down_up_fall_through_counterexample :
  (keyCode shiftArrowDown = DOWN domKeyCodes
   /\ UI_someToolbarOpened caretAtEndOfFirst = false
   /\ calls (press shiftArrowDown caretAtEndOfFirst) =
        [BlockManager_clearFocused; Toolbar_close;
         CrossBlockSelection_toggleBlockSelectedState None]
   /\ forall e, ~ In (BlockSelection_clearSelection e)
                     (calls (press shiftArrowDown caretAtEndOfFirst)))
  /\ (keyCode shiftCmdArrowDown = DOWN domKeyCodes
      /\ outcome (press shiftCmdArrowDown imageLast)
         = Thrown (Error "Unable to move Block down since it is already the last")
      /\ calls (press shiftCmdArrowDown imageLast) = []).
Proof.
  split.
  - repeat (split; [reflexivity|]).
    intros e Hin. vm_compute in Hin.
    repeat (destruct Hin as [Hin | Hin]; [discriminate Hin|]). exact Hin.
  - repeat split.
Qed.

Lemma drag_handlers_need_a_block_witness :
  calls (dragOver (mkDrag 21%nat) twoParagraphs) = [Block_set_dropTarget paragraph true]
  /\ calls (dragLeave (mkDrag 21%nat) twoParagraphs) = [Block_set_dropTarget paragraph false].
Proof.
  exact (proj1 (proj2 (proj2 (drag_handlers_need_a_block (mkDrag 21%nat) twoParagraphs)))
               paragraph eq_refl).
Defined.

End Concrete.

(** ** Further properties of the handlers *)

Section Further.
Context {num St : Type} `{JsNumber num} `{EditorModules num St}.
Variable keyCodes : KeyCodes.
Variable isPrintableKey : Z -> bool.
Variable Flipper_usedKeys : list Z.
Variable config : Config.

Local Abbreviation pre := (beforeKeydownProcessing keyCodes isPrintableKey).
Local Abbreviation onKeydown :=
  (keydown keyCodes isPrintableKey Flipper_usedKeys config).
Local Abbreviation rightAndDown :=
  (arrowRightAndDown keyCodes Flipper_usedKeys config).
Local Abbreviation leftAndUp :=
  (arrowLeftAndUp keyCodes Flipper_usedKeys config).

Ltac unfold_all :=
  unfold deref; unfold bind, get, ret, invoke, call, emit, throw.

Ltac run_all :=
  repeat (cbn -[includes js_index Z.eqb String.eqb Z.add Z.sub];
          rewrite ?String.eqb_refl, ?Z.eqb_refl;
          repeat match goal with
                 | Heq : ?x = _ |- context [?x] => rewrite Heq
                 end).

(** The whole run of a keydown that reaches a handler: the pre-processing,
    then the handler from the state the pre-processing leaves. *)
Lemma keydown_via (event : KeyboardEvent) (body : M num St unit) (w : St) :
  onKeydown event w = (pre event ;; body)%js w ->
  let w1 := final (pre event w) in
  outcome (onKeydown event w) = outcome (body w1)
  /\ calls (onKeydown event w) = calls (pre event w) ++ calls (body w1)
  /\ final (onKeydown event w) = final (body w1).
Proof.
  intros ->. rewrite after_pre. cbv zeta. repeat split.
Qed.

Lemma no_preventDefault_in_pre (event : KeyboardEvent) (w : St) (e : Event) :
  ~ In (event_preventDefault e) (calls (pre event w)).
Proof.
  destruct (pre_calls keyCodes isPrintableKey event w) as [-> | [-> | ->]];
    cbn; intuition discriminate.
Qed.

(** *** Enter that is left to the browser *)

Lemma enter_not_handled (event : KeyboardEvent) (s : St) (cb : Block) :
  BlockManager_currentBlock s = Some cb ->
  isLineBreaksEnabled (tool cb) = true
  \/ (UI_someToolbarOpened s = true /\ UI_someFlipperButtonFocused s = true)
  \/ shiftKey event = true ->
  enter config event s = mkRun (Returned tt) s [].
Proof.
  intros Hcur Hwhy. unfold enter. unfold_all. run_all.
  destruct (isLineBreaksEnabled (tool cb)) eqn:El; [reflexivity|].
  destruct (UI_someToolbarOpened s && UI_someFlipperButtonFocused s) eqn:Ef;
    cbn; [reflexivity|].
  destruct (shiftKey event) eqn:Es; [reflexivity|].
  exfalso. destruct Hwhy as [Hw | [[Ho Hf] | Hw]]; try discriminate.
  rewrite Ho, Hf in Ef. discriminate.
Qed.

(** X1.  An Enter keydown on a block whose tool enables line breaks, or
    while a toolbar is open with a focused flipper button, or with shift
    held, is left to the browser: after the pre-processing nothing is
    called, in particular not [preventDefault]; with shift held the keydown
    calls nothing at all and leaves the editor as it was. *)
Theorem enter_left_to_the_browser (event : KeyboardEvent) (w : St) (cb : Block) :
  NoDup (keyCodes_list keyCodes) ->
  keyCode event = ENTER keyCodes ->
  let before := beforeKeydownProcessing keyCodes isPrintableKey event w in
  let w1 := final before in
  BlockManager_currentBlock w1 = Some cb ->
  isLineBreaksEnabled (tool cb) = true
  \/ (UI_someToolbarOpened w1 = true /\ UI_someFlipperButtonFocused w1 = true)
  \/ shiftKey event = true ->
  let r := keydown keyCodes isPrintableKey Flipper_usedKeys config event w in
  outcome r = Returned tt
  /\ calls r = calls before
  /\ final r = final before
  /\ (forall e, ~ In (event_preventDefault e) (calls r))
  /\ (shiftKey event = true -> calls r = [] /\ final r = w).
Proof.
  intros Hnd Hk before w1 Hcur Hwhy r.
  apply keyCodes_distinct_neq in Hnd as [Hne _].
  destruct (keydown_via event (enter config event) w) as (Ho & Hc & Hf).
  { now apply keydown_ENTER. }
  subst r w1 before.
  rewrite (enter_not_handled event _ cb Hcur Hwhy) in Ho, Hc, Hf.
  cbn [outcome calls final] in Ho, Hc, Hf. rewrite app_nil_r in Hc.
  split; [exact Ho|]. split; [exact Hc|]. split; [exact Hf|]. split.
  - intros e. rewrite Hc. apply no_preventDefault_in_pre.
  - intros Hs. rewrite Hc, Hf.
    rewrite (pre_shift keyCodes isPrintableKey event w Hs). split; reflexivity.
Qed.

(** *** Enter that is handled *)



Lemma enter_at_start_plain (event : KeyboardEvent) (s : St) (cb : Block) :
  BlockManager_currentBlock s = Some cb ->
  isLineBreaksEnabled (tool cb) = false ->
  UI_someToolbarOpened s && UI_someFlipperButtonFocused s = false ->
  shiftKey event = false ->
  String.eqb (name cb) "list" = false ->
  Caret_isAtStart s = true ->
  hasMedia cb = false ->
  let index := BlockManager_currentBlockIndex s in
  outcome (enter config event s) = Returned tt
  /\ calls (enter config event s) =
       [BlockManager_insertDefaultBlockAtIndex index None None;
        Caret_setToBlock (Some cb) None;
        Toolbar_moveAndOpen (Some cb);
        event_preventDefault (Key event)].
Proof.
  intros Hcur Hlb Hflip Hshift Hname Hstart Hmedia. cbv zeta.
  unfold enter. unfold_all. run_all. split; reflexivity.
Qed.

Lemma enter_at_end_plain (event : KeyboardEvent) (s : St) (cb : Block) :
  BlockManager_currentBlock s = Some cb ->
  isLineBreaksEnabled (tool cb) = false ->
  UI_someToolbarOpened s && UI_someFlipperButtonFocused s = false ->
  shiftKey event = false ->
  String.eqb (name cb) "list" = false ->
  Caret_isAtStart s && negb (hasMedia cb) = false ->
  Caret_isAtEnd s = true ->
  let index := BlockManager_currentBlockIndex s in
  let inserted := fst (do_insertDefaultBlockAtIndex (index + 1) None None s) in
  outcome (enter config event s) = Returned tt
  /\ calls (enter config event s) =
       [BlockManager_insertDefaultBlockAtIndex (index + 1) None None;
        Caret_setToBlock (Some inserted) None;
        Toolbar_moveAndOpen (Some inserted);
        event_preventDefault (Key event)].
Proof.
  intros Hcur Hlb Hflip Hshift Hname Hstart Hend. cbv zeta.
  unfold enter. unfold_all.
  destruct (Caret_isAtStart s) eqn:Ea; cbn in Hstart; run_all;
    split; reflexivity.
Qed.

(** X3.  A handled Enter keydown on a block not named "list": with the
    caret at block start and no media in the block, a default block is
    inserted at the current index (no focus flag, no tool name) and the
    caret and the toolbar stay with the original block, not the inserted
    one; otherwise, with the caret at block end, a default block is
    inserted at the next index and the caret and the toolbar go to it. *)
Theorem enter_on_plain_block (event : KeyboardEvent) (w : St) (cb : Block) :
  NoDup (keyCodes_list keyCodes) ->
  keyCode event = ENTER keyCodes ->
  let before := beforeKeydownProcessing keyCodes isPrintableKey event w in
  let w1 := final before in
  BlockManager_currentBlock w1 = Some cb ->
  isLineBreaksEnabled (tool cb) = false ->
  UI_someToolbarOpened w1 && UI_someFlipperButtonFocused w1 = false ->
  shiftKey event = false ->
  name cb <> "list" ->
  let index := BlockManager_currentBlockIndex w1 in
  let r := keydown keyCodes isPrintableKey Flipper_usedKeys config event w in
  (Caret_isAtStart w1 = true -> hasMedia cb = false ->
   outcome r = Returned tt
   /\ calls r =
        calls before
        ++ [BlockManager_insertDefaultBlockAtIndex index None None;
            Caret_setToBlock (Some cb) None;
            Toolbar_moveAndOpen (Some cb);
            event_preventDefault (Key event)])
  /\ (Caret_isAtStart w1 && negb (hasMedia cb) = false ->
      Caret_isAtEnd w1 = true ->
      let inserted :=
        fst (do_insertDefaultBlockAtIndex (index + 1) None None w1) in
      outcome r = Returned tt
      /\ calls r =
           calls before
           ++ [BlockManager_insertDefaultBlockAtIndex (index + 1) None None;
               Caret_setToBlock (Some inserted) None;
               Toolbar_moveAndOpen (Some inserted);
               event_preventDefault (Key event)]).
Proof.
  intros Hnd Hk before w1 Hcur Hlb Hflip Hshift Hname index r.
  apply keyCodes_distinct_neq in Hnd as [Hne _].
  apply String.eqb_neq in Hname.
  destruct (keydown_via event (enter config event) w) as (Ho & Hc & Hf).
  { now apply keydown_ENTER. }
  subst r index w1 before. rewrite Ho, Hc. split.
  - intros Hstart Hmedia.
    destruct (enter_at_start_plain event _ cb Hcur Hlb Hflip Hshift Hname
                Hstart Hmedia) as [-> ->]. auto.
  - intros Hstart Hend.
    destruct (enter_at_end_plain event _ cb Hcur Hlb Hflip Hshift Hname
                Hstart Hend) as [-> ->]. auto.
Qed.

(** X4.  A block with media never takes the insert-above branch: a handled
    Enter keydown on a block with media, with the caret not at block end,
    splits the block even when the caret is at block start, with the
    block's own type when it is in [DEFAULT_TYPE_ACCEPT] and "paragraph"
    otherwise. *)
Theorem enter_on_media_block_splits (event : KeyboardEvent) (w : St) (cb : Block) :
  NoDup (keyCodes_list keyCodes) ->
  keyCode event = ENTER keyCodes ->
  let before := beforeKeydownProcessing keyCodes isPrintableKey event w in
  let w1 := final before in
  BlockManager_currentBlock w1 = Some cb ->
  js_index (BlockManager_blocks w1) (BlockManager_currentBlockIndex w1) = Some cb ->
  isLineBreaksEnabled (tool cb) = false ->
  UI_someToolbarOpened w1 && UI_someFlipperButtonFocused w1 = false ->
  shiftKey event = false ->
  hasMedia cb = true ->
  Caret_isAtEnd w1 = false ->
  let toolName :=
    if includes String.eqb DEFAULT_TYPE_ACCEPT (name cb)
    then name cb else "paragraph" in
  let created := fst (do_split toolName w1) in
  let r := keydown keyCodes isPrintableKey Flipper_usedKeys config event w in
  outcome r = Returned tt
  /\ calls r =
       calls before
       ++ [BlockManager_split toolName;
           Caret_setToBlock (Some created) None;
           Toolbar_moveAndOpen (Some created);
           event_preventDefault (Key event)].
Proof.
  intros Hnd Hk before w1 Hcur Hidx Hlb Hflip Hshift Hmedia Hend toolName created r.
  apply keyCodes_distinct_neq in Hnd as [Hne _].
  destruct (keydown_via event (enter config event) w) as (Ho & Hc & Hf).
  { now apply keydown_ENTER. }
  subst r created toolName w1 before. rewrite Ho, Hc.
  destruct (enter_splits config event _ cb Hcur Hidx Hlb Hflip Hshift) as [-> ->];
    auto.
  rewrite Hmedia. apply andb_false_r.
Qed.

(** *** Without a current block *)

(** X5.  [enter] and [backspace] read [currentBlock.tool] unguarded, and the
    Shift+Cmd arrow cases read [currentBlock.name] unguarded: without a
    current block an Enter or Backspace keydown throws a TypeError right
    after the pre-processing, and a Shift+Cmd+ArrowDown or ArrowUp keydown
    throws one before any call. *)
Theorem keydown_without_current_block (event : KeyboardEvent) (w : St) :
  NoDup (keyCodes_list keyCodes) ->
  let before := beforeKeydownProcessing keyCodes isPrintableKey event w in
  let r := keydown keyCodes isPrintableKey Flipper_usedKeys config event w in
  (keyCode event = ENTER keyCodes \/ keyCode event = BACKSPACE keyCodes ->
   BlockManager_currentBlock (final before) = None ->
   (exists msg, outcome r = Thrown (TypeError msg))
   /\ calls r = calls before /\ final r = final before)
  /\ (keyCode event = DOWN keyCodes \/ keyCode event = UP keyCodes ->
      shiftKey event = true -> metaKey event = true ->
      BlocksAPI_getBlockByIndex (BlocksAPI_getCurrentBlockIndex w) w = None ->
      (exists msg, outcome r = Thrown (TypeError msg))
      /\ calls r = [] /\ final r = w).
Proof.
  intros Hnd before r.
  apply keyCodes_distinct_neq in Hnd
    as (Hne & [Hd1 Hd2] & (Hu1 & Hu2 & Hu3 & Hu4) & _).
  subst r before. split.
  - intros [Hk | Hk] Hcur.
    + destruct (keydown_via event (enter config event) w) as (Ho & Hc & Hf).
      { now apply keydown_ENTER. }
      rewrite Ho, Hc, Hf. unfold enter. rewrite bind_get, Hcur. cbn.
      rewrite app_nil_r. eauto.
    + destruct (keydown_via event (backspace event) w) as (Ho & Hc & Hf).
      { now apply keydown_BACKSPACE. }
      rewrite Ho, Hc, Hf. unfold backspace. rewrite bind_get, Hcur. cbn.
      rewrite app_nil_r. eauto.
  - intros [Hk | Hk] Hs Hm Hcur.
    + rewrite keydown_DOWN, after_pre, pre_shift by assumption.
      cbn [final calls app].
      assert (Hrun : exists msg, moveImageDown event w
                                 = mkRun (Thrown (TypeError msg)) w []).
      { unfold moveImageDown. unfold_all. run_all. eexists. reflexivity. }
      destruct Hrun as [msg Hrun].
      rewrite bind_thrown with (e := TypeError msg) by (rewrite Hrun; reflexivity).
      rewrite Hrun. cbn. eauto.
    + rewrite keydown_UP, after_pre, pre_shift by assumption.
      cbn [final calls app].
      assert (Hrun : exists msg, moveImageUp event w
                                 = mkRun (Thrown (TypeError msg)) w []).
      { unfold moveImageUp. unfold_all. run_all. eexists. reflexivity. }
      destruct Hrun as [msg Hrun].
      rewrite bind_thrown with (e := TypeError msg) by (rewrite Hrun; reflexivity).
      rewrite Hrun. cbn. eauto.
Qed.

(** *** Tab *)

Lemma tabPressed_returns (event : KeyboardEvent) (s : St) :
  outcome (tabPressed event s) = Returned tt.
Proof.
  unfold tabPressed, activateToolbox, activateBlockSettings. unfold_all.
  cbn -[Z.eqb String.eqb].
  set (s1 := perform (BlockSelection_clearSelection (Key event)) s).
  clearbody s1.
  destruct (BlockManager_currentBlock s1) as [cb|] eqn:Hcur; [|reflexivity].
  destruct (isEmpty cb), (isDefault (tool cb)), (ConversionToolbar_opened s1),
    (SelectionUtils_isCollapsed s1), (InlineToolbar_opened s1),
    (Toolbar_opened s1) eqn:Et;
    run_all;
    repeat match goal with
           | |- context [BlockSettings_opened ?x] =>
               destruct (BlockSettings_opened x)
           end; reflexivity.
Qed.

(** X6.  A Tab keydown never throws: the block whose [focused] flag
    [activateBlockSettings] sets is the current block [tabPressed] has just
    found to exist.  Without a current block it only prevents the default
    action and clears the block selection. *)
Theorem tab_never_throws (event : KeyboardEvent) (w : St) :
  NoDup (keyCodes_list keyCodes) ->
  keyCode event = TAB keyCodes ->
  let r := keydown keyCodes isPrintableKey Flipper_usedKeys config event w in
  let w1 := perform (BlockSelection_clearSelection (Key event)) w in
  outcome r = Returned tt
  /\ (BlockManager_currentBlock w1 = None ->
      calls r = [event_preventDefault (Key event);
                 BlockSelection_clearSelection (Key event)]
      /\ final r = w1).
Proof.
  intros Hnd Hk r w1.
  apply keyCodes_distinct_neq in Hnd as (_ & _ & _ & Ht).
  destruct Ht as (? & ? & ? & ? & ? & ?).
  subst r. rewrite keydown_TAB, after_pre, pre_tab by assumption.
  cbn [final calls app outcome]. split; [apply tabPressed_returns|].
  intros Hcur. unfold tabPressed. unfold_all. cbn -[Z.eqb String.eqb].
  fold w1. rewrite Hcur. split; reflexivity.
Qed.

(** *** Backspace that is left to the browser *)

Lemma backspace_not_handled (event : KeyboardEvent) (s : St) (cb : Block) :
  BlockManager_currentBlock s = Some cb ->
  removedByBackspace cb = false ->
  Caret_isAtStart s = false
  \/ SelectionUtils_isCollapsed s = false
  \/ node_strict_eq (currentInput cb) (firstInput cb) = false
  \/ BlockManager_currentBlockIndex s = 0 ->
  backspace event s = mkRun (Returned tt) s [].
Proof.
  intros Hcur Hkeep Hwhy. unfold backspace. unfold_all. run_all.
  destruct (Caret_isAtStart s) eqn:Ea; cbn;
    destruct (isLineBreaksEnabled (tool cb)); cbn; try reflexivity.
  all: destruct (SelectionUtils_isCollapsed s) eqn:Ec; cbn; try reflexivity.
  all: destruct (node_strict_eq (currentInput cb) (firstInput cb)) eqn:Ei;
    cbn; try reflexivity.
  all: destruct (BlockManager_currentBlockIndex s =? 0) eqn:Ez; cbn;
    try reflexivity.
  all: exfalso; apply Z.eqb_neq in Ez;
    destruct Hwhy as [Hw | [Hw | [Hw | Hw]]]; congruence.
Qed.

(** X7.  A Backspace keydown on a block that is not selected and not empty
    is left to the browser unless the caret is at the very start of the
    first input of a block that is not the first one, with a collapsed
    selection: when the caret is not at block start, or the selection is
    not collapsed, or the current input is not the first input, or the
    block is the first one, nothing is called after the pre-processing, and
    [preventDefault] is not called. *)
Theorem backspace_left_to_the_browser (event : KeyboardEvent) (w : St) (cb : Block) :
  keyCode event = BACKSPACE keyCodes ->
  let before := beforeKeydownProcessing keyCodes isPrintableKey event w in
  let w1 := final before in
  BlockManager_currentBlock w1 = Some cb ->
  selected cb = false ->
  isEmpty cb = false ->
  Caret_isAtStart w1 = false
  \/ SelectionUtils_isCollapsed w1 = false
  \/ currentInput cb <> firstInput cb
  \/ BlockManager_currentBlockIndex w1 = 0 ->
  let r := keydown keyCodes isPrintableKey Flipper_usedKeys config event w in
  outcome r = Returned tt
  /\ calls r = calls before
  /\ final r = final before
  /\ (forall e, ~ In (event_preventDefault e) (calls r)).
Proof.
  intros Hk before w1 Hcur Hsel Hempty Hwhy r.
  assert (Hkeep : removedByBackspace cb = false).
  { unfold removedByBackspace. now rewrite Hsel, Hempty. }
  assert (Hwhy' : Caret_isAtStart w1 = false
                  \/ SelectionUtils_isCollapsed w1 = false
                  \/ node_strict_eq (currentInput cb) (firstInput cb) = false
                  \/ BlockManager_currentBlockIndex w1 = 0).
  { destruct Hwhy as [Hw | [Hw | [Hw | Hw]]]; auto.
    right; right; left.
    destruct (node_strict_eq (currentInput cb) (firstInput cb)) eqn:E;
      [|reflexivity]. apply node_strict_eq_true in E. contradiction. }
  destruct (keydown_via event (backspace event) w) as (Ho & Hc & Hf).
  { now apply keydown_BACKSPACE. }
  subst r w1 before.
  rewrite (backspace_not_handled event _ cb Hcur Hkeep Hwhy') in Ho, Hc, Hf.
  cbn [outcome calls final] in Ho, Hc, Hf. rewrite app_nil_r in Hc.
  repeat split; try assumption.
  intros e. rewrite Hc. apply no_preventDefault_in_pre.
Qed.

(** *** After a merge *)


(** *** Dispatch of the remaining keys *)

Lemma keydown_RIGHT (event : KeyboardEvent) (w : St) :
  keyCode event = RIGHT keyCodes ->
  RIGHT keyCodes <> BACKSPACE keyCodes ->
  RIGHT keyCodes <> ENTER keyCodes ->
  RIGHT keyCodes <> DOWN keyCodes ->
  onKeydown event w = (pre event ;; rightAndDown event)%js w.
Proof.
  intros Hk Hb He Hd. unfold keydown. apply bind_ext. intros _ s.
  now rewrite Hk, !switch_skip, switch_hit, run_cases_break by assumption.
Qed.

Lemma keydown_LEFT (event : KeyboardEvent) (w : St) :
  keyCode event = LEFT keyCodes ->
  LEFT keyCodes <> BACKSPACE keyCodes ->
  LEFT keyCodes <> ENTER keyCodes ->
  LEFT keyCodes <> DOWN keyCodes ->
  LEFT keyCodes <> RIGHT keyCodes ->
  LEFT keyCodes <> UP keyCodes ->
  onKeydown event w = (pre event ;; leftAndUp event)%js w.
Proof.
  intros Hk Hb He Hd Hr Hu. unfold keydown. apply bind_ext. intros _ s.
  now rewrite Hk, !switch_skip, switch_hit, run_cases_break by assumption.
Qed.

Lemma keydown_unbound (event : KeyboardEvent) (w : St) :
  ~ In (keyCode event) (keyCodes_list keyCodes) ->
  onKeydown event w = (pre event ;; ret tt)%js w.
Proof.
  intros Hn. unfold keyCodes_list in Hn. cbn [In] in Hn.
  unfold keydown. apply bind_ext. intros _ s.
  rewrite !switch_skip by (intros E; apply Hn; rewrite E; tauto).
  reflexivity.
Qed.

Lemma keyCodes_distinct_horizontal :
  NoDup (keyCodes_list keyCodes) ->
  (RIGHT keyCodes <> BACKSPACE keyCodes /\ RIGHT keyCodes <> ENTER keyCodes
   /\ RIGHT keyCodes <> DOWN keyCodes)
  /\ (LEFT keyCodes <> BACKSPACE keyCodes /\ LEFT keyCodes <> ENTER keyCodes
      /\ LEFT keyCodes <> DOWN keyCodes /\ LEFT keyCodes <> RIGHT keyCodes
      /\ LEFT keyCodes <> UP keyCodes).
Proof.
  unfold keyCodes_list. intros Hnd.
  repeat match goal with
         | Hn : NoDup (_ :: _) |- _ => inversion Hn; clear Hn; subst
         end.
  cbn [In] in *. intuition congruence.
Qed.

(** Every keydown is the pre-processing followed by the body of the first
    case its key code matches, with the fall-through of the two vertical
    arrows, or by nothing. *)
Lemma keydown_dispatch (event : KeyboardEvent) (w : St) :
  exists body : M num St unit,
    onKeydown event w = (pre event ;; body)%js w
    /\ ((keyCode event = BACKSPACE keyCodes /\ body = backspace event)
        \/ (keyCode event = ENTER keyCodes /\ body = enter config event)
        \/ (keyCode event = DOWN keyCodes
            /\ body = (moveImageDown event ;; rightAndDown event)%js)
        \/ (keyCode event = RIGHT keyCodes /\ body = rightAndDown event)
        \/ (keyCode event = UP keyCodes
            /\ body = (moveImageUp event ;; leftAndUp event)%js)
        \/ (keyCode event = LEFT keyCodes /\ body = leftAndUp event)
        \/ (keyCode event = TAB keyCodes /\ body = tabPressed event)
        \/ (~ In (keyCode event) (keyCodes_list keyCodes) /\ body = ret tt)).
Proof.
  destruct (Z.eq_dec (keyCode event) (BACKSPACE keyCodes)) as [Eb | Nb].
  { eexists. split; [now apply keydown_BACKSPACE | tauto]. }
  destruct (Z.eq_dec (keyCode event) (ENTER keyCodes)) as [Ee | Ne].
  { eexists. split; [apply keydown_ENTER; congruence | tauto]. }
  destruct (Z.eq_dec (keyCode event) (DOWN keyCodes)) as [Ed | Nd].
  { eexists. split; [apply keydown_DOWN; congruence | tauto]. }
  destruct (Z.eq_dec (keyCode event) (RIGHT keyCodes)) as [Er | Nr].
  { eexists. split; [apply keydown_RIGHT; congruence | tauto]. }
  destruct (Z.eq_dec (keyCode event) (UP keyCodes)) as [Eu | Nu].
  { eexists. split; [apply keydown_UP; congruence | tauto]. }
  destruct (Z.eq_dec (keyCode event) (LEFT keyCodes)) as [El | Nl].
  { eexists. split; [apply keydown_LEFT; congruence | tauto]. }
  destruct (Z.eq_dec (keyCode event) (TAB keyCodes)) as [Et | Nt].
  { eexists. split; [apply keydown_TAB; congruence |]. tauto. }
  eexists. split; [apply keydown_unbound|].
  - unfold keyCodes_list. cbn [In]. intuition congruence.
  - do 7 right. split; [|reflexivity].
    unfold keyCodes_list. cbn [In]. intuition congruence.
Qed.

(** X10.  A keydown whose key code is none of Backspace, Tab, Enter and the
    four arrows runs the pre-processing and nothing else. *)
Theorem keydown_on_other_keys (event : KeyboardEvent) (w : St) :
  ~ In (keyCode event) (keyCodes_list keyCodes) ->
  keydown keyCodes isPrintableKey Flipper_usedKeys config event w
  = beforeKeydownProcessing keyCodes isPrintableKey event w.
Proof.
  intros Hn. rewrite keydown_unbound by assumption.
  unfold bind, ret. destruct (pre event w) as [[[]|e] s l];
    [now rewrite app_nil_r | reflexivity].
Qed.

(** *** Horizontal arrows *)

Lemma rightAndDown_on_RIGHT (event : KeyboardEvent) (s : St) :
  keyCode event = RIGHT keyCodes ->
  RIGHT keyCodes <> DOWN keyCodes ->
  UI_someToolbarOpened s && isFlipperCombination keyCodes Flipper_usedKeys event
  = false ->
  let s1 := perform Toolbar_close (perform BlockManager_clearFocused s) in
  let forward := negb (isRtl config) in
  let navigated :=
    if forward then fst (do_navigateNext s1) else fst (do_navigatePrevious s1) in
  outcome (rightAndDown event s) = Returned tt
  /\ calls (rightAndDown event s) =
       [BlockManager_clearFocused; Toolbar_close;
        if forward then Caret_navigateNext else Caret_navigatePrevious;
        if navigated then event_preventDefault (Key event)
        else delay refreshCurrentInput 20;
        BlockSelection_clearSelection (Key event)].
Proof.
  intros Hk Hd Hfree. cbv zeta.
  split; [apply arrowRightAndDown_returns|].
  unfold arrowRightAndDown, afterNavigation. unfold_all.
  cbn -[Z.eqb isFlipperCombination]. rewrite Hfree, Hk.
  apply Z.eqb_neq in Hd. rewrite Hd, Z.eqb_refl, andb_false_r.
  cbn -[Z.eqb].
  destruct (isRtl config); cbn;
    [destruct (fst (do_navigatePrevious _)) | destruct (fst (do_navigateNext _))];
    reflexivity.
Qed.

Lemma leftAndUp_on_LEFT (event : KeyboardEvent) (s : St) :
  keyCode event = LEFT keyCodes ->
  LEFT keyCodes <> UP keyCodes ->
  UI_someToolbarOpened s && isFlipperCombination keyCodes Flipper_usedKeys event
  = false ->
  let s0 := if UI_someToolbarOpened s then perform UI_closeAllToolbars s else s in
  let s1 := perform Toolbar_close (perform BlockManager_clearFocused s0) in
  let backward := negb (isRtl config) in
  let navigated :=
    if backward then fst (do_navigatePrevious s1) else fst (do_navigateNext s1) in
  outcome (leftAndUp event s) = Returned tt
  /\ calls (leftAndUp event s) =
       (if UI_someToolbarOpened s then [UI_closeAllToolbars] else [])
       ++ [BlockManager_clearFocused; Toolbar_close;
           if backward then Caret_navigatePrevious else Caret_navigateNext;
           if navigated then event_preventDefault (Key event)
           else delay refreshCurrentInput 20;
           BlockSelection_clearSelection (Key event)].
Proof.
  intros Hk Hu Hfree. cbv zeta.
  split; [apply arrowLeftAndUp_returns|].
  unfold arrowLeftAndUp, afterNavigation. unfold_all.
  cbn -[Z.eqb isFlipperCombination]. rewrite Hfree, Hk.
  apply Z.eqb_neq in Hu. rewrite Hu, Z.eqb_refl, andb_false_r.
  destruct (UI_someToolbarOpened s); cbn -[Z.eqb];
    (destruct (isRtl config); cbn;
     [destruct (fst (do_navigateNext _)) | destruct (fst (do_navigatePrevious _))];
     reflexivity).
Qed.

(** X9.  The horizontal arrows follow the text direction and never select
    across blocks.  Unless a toolbar is open and the key is a Flipper
    combination, an ArrowRight keydown clears block focus, closes the
    toolbar, navigates the caret to the next position in a left-to-right
    editor and to the previous one in a right-to-left editor, prevents the
    default action when the caret moved and schedules a refresh of the
    current input after 20 ms when it did not, and clears the block
    selection; shift makes no difference.  ArrowLeft does the same in the
    opposite direction, after closing all toolbars when one is open. *)
Theorem horizontal_arrows_follow_direction (event : KeyboardEvent) (w : St) :
  NoDup (keyCodes_list keyCodes) ->
  let before := beforeKeydownProcessing keyCodes isPrintableKey event w in
  let w1 := final before in
  UI_someToolbarOpened w1 && isFlipperCombination keyCodes Flipper_usedKeys event
  = false ->
  let ltr := negb (isRtl config) in
  let r := keydown keyCodes isPrintableKey Flipper_usedKeys config event w in
  (keyCode event = RIGHT keyCodes ->
   let w3 := perform Toolbar_close (perform BlockManager_clearFocused w1) in
   let navigated :=
     if ltr then fst (do_navigateNext w3) else fst (do_navigatePrevious w3) in
   outcome r = Returned tt
   /\ calls r =
        calls before
        ++ [BlockManager_clearFocused; Toolbar_close;
            if ltr then Caret_navigateNext else Caret_navigatePrevious;
            if navigated then event_preventDefault (Key event)
            else delay refreshCurrentInput 20;
            BlockSelection_clearSelection (Key event)])
  /\ (keyCode event = LEFT keyCodes ->
      let w2 :=
        if UI_someToolbarOpened w1 then perform UI_closeAllToolbars w1 else w1 in
      let w3 := perform Toolbar_close (perform BlockManager_clearFocused w2) in
      let navigated :=
        if ltr then fst (do_navigatePrevious w3) else fst (do_navigateNext w3) in
      outcome r = Returned tt
      /\ calls r =
           calls before
           ++ (if UI_someToolbarOpened w1 then [UI_closeAllToolbars] else [])
           ++ [BlockManager_clearFocused; Toolbar_close;
               if ltr then Caret_navigatePrevious else Caret_navigateNext;
               if navigated then event_preventDefault (Key event)
               else delay refreshCurrentInput 20;
               BlockSelection_clearSelection (Key event)]).
Proof.
  intros Hnd before w1 Hfree ltr r.
  pose proof (keyCodes_distinct_neq keyCodes Hnd)
    as (_ & _ & (_ & _ & Hud & Hur) & _).
  apply keyCodes_distinct_horizontal in Hnd
    as ((Hr1 & Hr2 & Hr3) & (Hl1 & Hl2 & Hl3 & Hl4 & Hl5)).
  subst r ltr w1 before. split; intros Hk.
  - destruct (keydown_via event (rightAndDown event) w) as (Ho & Hc & _).
    { now apply keydown_RIGHT. }
    rewrite Ho, Hc.
    destruct (rightAndDown_on_RIGHT event _ Hk Hr3 Hfree) as [-> ->]. auto.
  - destruct (keydown_via event (leftAndUp event) w) as (Ho & Hc & _).
    { now apply keydown_LEFT. }
    rewrite Ho, Hc.
    destruct (leftAndUp_on_LEFT event _ Hk Hl5 Hfree) as [-> ->]. auto.
Qed.

(** *** What the handlers never call *)

Lemma Forall_calls_bind {A B} (P : Call num -> Prop) (m : M num St A)
    (f : A -> M num St B) (s : St) :
  Forall P (calls (m s)) ->
  (forall a s', Forall P (calls (f a s'))) ->
  Forall P (calls (bind m f s)).
Proof.
  unfold bind. destruct (m s) as [[a|e] s1 l]; cbn; intros Hm Hf;
    [|assumption].
  specialize (Hf a s1). destruct (f a s1); cbn in *.
  apply Forall_app. split; assumption.
Qed.

Lemma In_calls_bind {A B} (c : Call num) (m : M num St A)
    (f : A -> M num St B) (s : St) :
  In c (calls (bind m f s)) ->
  In c (calls (m s)) \/ exists a s', In c (calls (f a s')).
Proof.
  unfold bind. destruct (m s) as [[a|e] s1 l]; cbn; [|tauto].
  destruct (f a s1) as [o s2 l2] eqn:Ef; cbn. intros Hin.
  apply in_app_or in Hin as [Hin | Hin]; [tauto|].
  right. exists a, s1. now rewrite Ef.
Qed.

Ltac all_calls :=
  repeat (intros;
          lazymatch goal with
          | |- Forall _ (calls (bind _ _ _)) => apply Forall_calls_bind
          | |- Forall _ (calls ((if ?b then _ else _) _)) => destruct b
          | |- Forall _ (calls (deref ?o _ _)) => destruct o; cbn [deref]
          | |- Forall _ (calls (match ?o with _ => _ end _)) => destruct o
          | |- Forall _ (calls (get _ _)) => apply Forall_nil
          | |- Forall _ (calls (ret _ _)) => apply Forall_nil
          | |- Forall _ (calls (throw _ _)) => apply Forall_nil
          | |- Forall _ (calls (emit _ _)) =>
              apply Forall_cons; [reflexivity | apply Forall_nil]
          | |- Forall _ (calls (invoke _ _ _)) =>
              apply Forall_cons; [reflexivity | apply Forall_nil]
          | |- Forall _ (calls (call _ _)) =>
              apply Forall_cons; [reflexivity | apply Forall_nil]
          end).

Lemma pre_keeps_blocks (event : KeyboardEvent) (s : St) :
  Forall keepsBlockList (calls (pre event s)).
Proof.
  destruct (pre_calls keyCodes isPrintableKey event s) as [-> | [-> | ->]];
    repeat constructor.
Qed.

Lemma tabPressed_keeps_blocks (event : KeyboardEvent) (s : St) :
  Forall keepsBlockList (calls (tabPressed event s)).
Proof.
  unfold tabPressed, activateToolbox, activateBlockSettings. all_calls.
Qed.

Lemma rightAndDown_keeps_blocks (event : KeyboardEvent) (s : St) :
  Forall keepsBlockList (calls (rightAndDown event s)).
Proof. unfold arrowRightAndDown, afterNavigation. all_calls. Qed.

Lemma leftAndUp_keeps_blocks (event : KeyboardEvent) (s : St) :
  Forall keepsBlockList (calls (leftAndUp event s)).
Proof. unfold arrowLeftAndUp, afterNavigation. all_calls. Qed.

Lemma moveImage_idle (event : KeyboardEvent) (s : St) :
  shiftKey event && metaKey event = false ->
  moveImageDown event s = mkRun (Returned tt) s []
  /\ moveImageUp event s = mkRun (Returned tt) s [].
Proof.
  intros Hs. unfold moveImageDown, moveImageUp. rewrite Hs. split; reflexivity.
Qed.

(** X13.  Only Backspace, Enter and the Shift+Cmd arrow shortcut touch the
    list of blocks: a keydown of any other key, whatever modifiers are held,
    and an ArrowDown or ArrowUp keydown without both shift and cmd held,
    never calls [removeBlock], [removeSelectedBlocks],
    [insertDefaultBlockAtIndex], [split], [mergeBlocks] or [move]. *)
Theorem keydown_keeps_block_list (event : KeyboardEvent) (w : St) :
  keyCode event <> BACKSPACE keyCodes ->
  keyCode event <> ENTER keyCodes ->
  (keyCode event = DOWN keyCodes \/ keyCode event = UP keyCodes ->
   shiftKey event && metaKey event = false) ->
  Forall (fun c => changesBlockList c = false)
         (calls (keydown keyCodes isPrintableKey Flipper_usedKeys config event w)).
Proof.
  intros Hb He Hsm.
  destruct (keydown_dispatch event w) as (body & -> & Hbody).
  apply Forall_calls_bind; [apply pre_keeps_blocks|]. intros _ s.
  destruct Hbody as [[Hk ->] | [[Hk ->] | [[Hk ->] | [[Hk ->] | [[Hk ->]
    | [[Hk ->] | [[Hk ->] | [Hk ->]]]]]]]]; try contradiction.
  - apply Forall_calls_bind.
    + destruct (moveImage_idle event s (Hsm (or_introl Hk))) as [-> _].
      constructor.
    + intros _ s'. apply rightAndDown_keeps_blocks.
  - apply rightAndDown_keeps_blocks.
  - apply Forall_calls_bind.
    + destruct (moveImage_idle event s (Hsm (or_intror Hk))) as [_ ->].
      constructor.
    + intros _ s'. apply leftAndUp_keeps_blocks.
  - apply leftAndUp_keeps_blocks.
  - apply tabPressed_keeps_blocks.
  - constructor.
Qed.

(** X14.  The handlers outside [keydown] never touch the list of blocks
    themselves: [keyup], [dragOver], [dragLeave], [handleCommandC] and the
    immediate part of [handleCommandX] call none of [removeBlock],
    [removeSelectedBlocks], [insertDefaultBlockAtIndex], [split],
    [mergeBlocks] and [move]; of the deferred callbacks only the one of the
    cut does. *)
Theorem other_handlers_keep_block_list (key : KeyboardEvent) (drag : DragEvent)
    (clip : ClipboardEvent) (targetBlock : Block) (s : St) :
  let harmless := fun c : Call num => changesBlockList c = false in
  Forall harmless (calls (keyup key s))
  /\ Forall harmless (calls (dragOver drag s))
  /\ Forall harmless (calls (dragLeave drag s))
  /\ Forall harmless (calls (handleCommandC clip s))
  /\ Forall harmless (calls (handleCommandX clip s))
  /\ Forall harmless (calls (runTask (afterMerge targetBlock) s))
  /\ Forall harmless (calls (runTask refreshCurrentInput s))
  /\ Exists (fun c => changesBlockList c = true)
            (calls (runTask (afterCopy (Clip clip)) s)).
Proof.
  cbv zeta. repeat split.
  - unfold keyup. all_calls.
  - unfold dragOver. all_calls.
  - unfold dragLeave. all_calls.
  - unfold handleCommandC. all_calls.
  - unfold handleCommandX. all_calls.
  - unfold runTask. all_calls.
  - unfold runTask. all_calls.
  - apply Exists_cons_hd. reflexivity.
Qed.

(** *** Reordering *)

Lemma pre_keeps_order (event : KeyboardEvent) (s : St) :
  Forall keepsBlockOrder (calls (pre event s)).
Proof.
  destruct (pre_calls keyCodes isPrintableKey event s) as [-> | [-> | ->]];
    repeat constructor.
Qed.

Lemma enter_keeps_order (event : KeyboardEvent) (s : St) :
  Forall keepsBlockOrder (calls (enter config event s)).
Proof. unfold enter. all_calls. Qed.

Lemma backspace_keeps_order (event : KeyboardEvent) (s : St) :
  Forall keepsBlockOrder (calls (backspace event s)).
Proof. unfold backspace, mergeBlocks. all_calls. Qed.

Lemma tabPressed_keeps_order (event : KeyboardEvent) (s : St) :
  Forall keepsBlockOrder (calls (tabPressed event s)).
Proof.
  unfold tabPressed, activateToolbox, activateBlockSettings. all_calls.
Qed.

Lemma rightAndDown_keeps_order (event : KeyboardEvent) (s : St) :
  Forall keepsBlockOrder (calls (rightAndDown event s)).
Proof. unfold arrowRightAndDown, afterNavigation. all_calls. Qed.

Lemma leftAndUp_keeps_order (event : KeyboardEvent) (s : St) :
  Forall keepsBlockOrder (calls (leftAndUp event s)).
Proof. unfold arrowLeftAndUp, afterNavigation. all_calls. Qed.

Lemma keepsBlockOrder_move (l : list (Call num)) (i : Z) :
  Forall keepsBlockOrder l -> ~ In (BlocksAPI_move i) l.
Proof.
  intros Hall Hin. rewrite Forall_forall in Hall. exact (Hall _ Hin).
Qed.

Lemma moveImageDown_only (event : KeyboardEvent) (s : St) (i : Z) :
  In (BlocksAPI_move i) (calls (moveImageDown event s)) ->
  imageMoved 1 event s i.
Proof.
  unfold moveImageDown, imageMoved. unfold_all.
  destruct (shiftKey event), (metaKey event); cbn; try tauto.
  destruct (BlocksAPI_getBlockByIndex (BlocksAPI_getCurrentBlockIndex s) s)
    as [cb|] eqn:Ecur; cbn; try tauto.
  destruct (String.eqb (api_name cb) "image") eqn:En; cbn; try tauto.
  apply String.eqb_eq in En.
  destruct (BlocksAPI_getBlockByIndex (BlocksAPI_getCurrentBlockIndex s + 1) s)
    as [nb|] eqn:Enext; cbn; try tauto.
  intros [Hin | [Hin | []]]; [discriminate|]. injection Hin as <-.
  repeat split; eauto.
Qed.

Lemma moveImageUp_only (event : KeyboardEvent) (s : St) (i : Z) :
  In (BlocksAPI_move i) (calls (moveImageUp event s)) ->
  imageMoved (-1) event s i /\ BlocksAPI_getCurrentBlockIndex s <> 0.
Proof.
  unfold moveImageUp, imageMoved. unfold_all.
  destruct (shiftKey event), (metaKey event); cbn; try tauto.
  destruct (BlocksAPI_getBlockByIndex (BlocksAPI_getCurrentBlockIndex s) s)
    as [cb|] eqn:Ecur; cbn; try tauto.
  destruct (String.eqb (api_name cb) "image") eqn:En; cbn; try tauto.
  apply String.eqb_eq in En.
  destruct (BlocksAPI_getBlockByIndex (BlocksAPI_getCurrentBlockIndex s - 1) s)
    as [pb|] eqn:Eprev; cbn; try tauto.
  destruct (BlocksAPI_getCurrentBlockIndex s =? 0) eqn:Ez; cbn; try tauto.
  apply Z.eqb_neq in Ez.
  intros [Hin | [Hin | []]]; [discriminate|]. injection Hin as <-.
  repeat split; eauto.
Qed.

(** X11.  Blocks are reordered by nothing but the Shift+Cmd arrow shortcut
    on an image block: whenever a keydown calls [BlocksAPI.move], shift and
    cmd are held, the block at the current index is named "image", and the
    call moves it to the index just below on ArrowDown, where a block
    exists, or just above on ArrowUp, where a block exists and the image is
    not the first block. *)
Theorem only_image_shortcut_reorders (event : KeyboardEvent) (w : St) (i : Z) :
  In (BlocksAPI_move i)
     (calls (keydown keyCodes isPrintableKey Flipper_usedKeys config event w)) ->
  let index := BlocksAPI_getCurrentBlockIndex w in
  shiftKey event = true /\ metaKey event = true
  /\ (exists cb, BlocksAPI_getBlockByIndex index w = Some cb
                 /\ api_name cb = "image")
  /\ (exists neighbour, BlocksAPI_getBlockByIndex i w = Some neighbour)
  /\ ((keyCode event = DOWN keyCodes /\ i = index + 1)
      \/ (keyCode event = UP keyCodes /\ i = index - 1 /\ index <> 0)).
Proof.
  intros Hin. cbv zeta.
  destruct (keydown_dispatch event w) as (body & Hrun & Hbody).
  destruct (keydown_via event body w Hrun) as (_ & Hc & _).
  rewrite Hc in Hin. apply in_app_or in Hin as [Hin | Hin].
  { exfalso. revert Hin. apply keepsBlockOrder_move, pre_keeps_order. }
  set (w1 := final (pre event w)) in *.
  assert (Hsame : shiftKey event = true -> w1 = w).
  { intros Hs. subst w1. now rewrite pre_shift. }
  destruct Hbody as [[Hk ->] | [[Hk ->] | [[Hk ->] | [[Hk ->] | [[Hk ->]
    | [[Hk ->] | [[Hk ->] | [Hk ->]]]]]]]].
  - exfalso. revert Hin. apply keepsBlockOrder_move, backspace_keeps_order.
  - exfalso. revert Hin. apply keepsBlockOrder_move, enter_keeps_order.
  - assert (Hmove : In (BlocksAPI_move i) (calls (moveImageDown event w1))).
    { apply In_calls_bind in Hin as [Hin | (a & s' & Hin)]; [assumption|].
      exfalso. revert Hin. apply keepsBlockOrder_move, rightAndDown_keeps_order. }
    apply moveImageDown_only in Hmove as (Hs & Hm & Hcb & Hnb & Hi).
    rewrite (Hsame Hs) in *. do 4 (split; [assumption|]).
    left. split; assumption.
  - exfalso. revert Hin. apply keepsBlockOrder_move, rightAndDown_keeps_order.
  - assert (Hmove : In (BlocksAPI_move i) (calls (moveImageUp event w1))).
    { apply In_calls_bind in Hin as [Hin | (a & s' & Hin)]; [assumption|].
      exfalso. revert Hin. apply keepsBlockOrder_move, leftAndUp_keeps_order. }
    apply moveImageUp_only in Hmove as ((Hs & Hm & Hcb & Hnb & Hi) & Hnz).
    rewrite (Hsame Hs) in *. do 4 (split; [assumption|]).
    right. split; [assumption|]. split; [lia | assumption].
  - exfalso. revert Hin. apply keepsBlockOrder_move, leftAndUp_keeps_order.
  - exfalso. revert Hin. apply keepsBlockOrder_move, tabPressed_keeps_order.
  - destruct Hin.
Qed.

(** X12.  The Shift+Cmd arrow shortcut does nothing of its own on a block
    that is not named "image": the keydown is exactly a run of the arrow
    handler, [arrowRightAndDown] on ArrowDown and [arrowLeftAndUp] on
    ArrowUp, from the unchanged editor, and it neither scrolls the page nor
    moves a block. *)
Theorem shift_cmd_arrow_on_other_block (event : KeyboardEvent) (w : St)
    (cb : BlockAPI) :
  NoDup (keyCodes_list keyCodes) ->
  shiftKey event = true ->
  metaKey event = true ->
  BlocksAPI_getBlockByIndex (BlocksAPI_getCurrentBlockIndex w) w = Some cb ->
  api_name cb <> "image" ->
  let r := keydown keyCodes isPrintableKey Flipper_usedKeys config event w in
  (keyCode event = DOWN keyCodes ->
   r = arrowRightAndDown keyCodes Flipper_usedKeys config event w)
  /\ (keyCode event = UP keyCodes ->
      r = arrowLeftAndUp keyCodes Flipper_usedKeys config event w)
  /\ (keyCode event = DOWN keyCodes \/ keyCode event = UP keyCodes ->
      Forall keepsBlockOrder (calls r)).
Proof.
  intros Hnd Hs Hm Hcur Hname r.
  apply keyCodes_distinct_neq in Hnd
    as (_ & [Hd1 Hd2] & (Hu1 & Hu2 & Hu3 & Hu4) & _).
  apply String.eqb_neq in Hname.
  assert (Hdown : moveImageDown event w = mkRun (Returned tt) w []).
  { unfold moveImageDown. unfold_all. run_all. reflexivity. }
  assert (Hup : moveImageUp event w = mkRun (Returned tt) w []).
  { unfold moveImageUp. unfold_all. run_all. reflexivity. }
  assert (HrunD : keyCode event = DOWN keyCodes -> r = rightAndDown event w).
  { intros Hk. subst r. rewrite keydown_DOWN by assumption.
    unfold bind at 1. rewrite pre_shift by assumption.
    unfold bind. rewrite Hdown.
    destruct (rightAndDown event w) as [o s l]. reflexivity. }
  assert (HrunU : keyCode event = UP keyCodes -> r = leftAndUp event w).
  { intros Hk. subst r. rewrite keydown_UP by assumption.
    unfold bind at 1. rewrite pre_shift by assumption.
    unfold bind. rewrite Hup.
    destruct (leftAndUp event w) as [o s l]. reflexivity. }
  split; [exact HrunD|]. split; [exact HrunU|].
  intros [Hk | Hk].
  - rewrite (HrunD Hk). apply rightAndDown_keeps_order.
  - rewrite (HrunU Hk). apply leftAndUp_keeps_order.
Qed.

(** *** Modifier keys in the pre-processing *)

(** X15.  The pre-processing keeps block focus and block selection whenever
    a modifier key is held, so that shortcuts work on selected blocks: with
    shift held, or on a key that is not printable, it calls nothing; on Tab,
    and on Enter while the toolbox, the block settings, the inline toolbar
    or the conversion toolbar is open, it calls nothing either, whatever
    modifiers are held; on any other printable key with ctrl, cmd or alt
    held (and not shift) it closes the toolbar and the conversion toolbar
    and nothing more; and whenever it clears block focus or the block
    selection, the key is printable and none of ctrl, cmd, alt and shift is
    held. *)
Theorem beforeKeydownProcessing_respects_modifiers (event : KeyboardEvent) (w : St) :
  let r := beforeKeydownProcessing keyCodes isPrintableKey event w in
  let panelOpen :=
    Toolbox_opened w || BlockSettings_opened w
    || InlineToolbar_opened w || ConversionToolbar_opened w in
  (shiftKey event = true \/ isPrintableKey (keyCode event) = false ->
   calls r = [] /\ final r = w)
  /\ (isPrintableKey (keyCode event) = true ->
      shiftKey event = false ->
      ctrlKey event || metaKey event || altKey event = true ->
      keyCode event <> TAB keyCodes ->
      (keyCode event = ENTER keyCodes -> panelOpen = false) ->
      calls r = [Toolbar_close; ConversionToolbar_close])
  /\ (forall e, In (BlockSelection_clearSelection e) (calls r)
                \/ In BlockManager_clearFocused (calls r) ->
      isPrintableKey (keyCode event) = true
      /\ ctrlKey event = false /\ metaKey event = false
      /\ altKey event = false /\ shiftKey event = false)
  /\ (keyCode event = TAB keyCodes
      \/ (keyCode event = ENTER keyCodes /\ panelOpen = true) ->
      calls r = [] /\ final r = w).
Proof.
  cbv zeta. unfold beforeKeydownProcessing, bind.
  rewrite needToolbarClosing_run. split; [|split; [|split]].
  - intros [Hs | Hp].
    + rewrite Hs. cbn. split; reflexivity.
    + rewrite Hp.
      destruct (negb _); cbn; split; reflexivity.
  - intros Hp Hs Hmod Htab Hent. rewrite Hp, Hs.
    apply Z.eqb_neq in Htab. rewrite Htab.
    destruct (keyCode event =? ENTER keyCodes) eqn:E.
    + apply Z.eqb_eq in E. specialize (Hent E).
      apply orb_false_iff in Hent as [Hent Hconv].
      apply orb_false_iff in Hent as [Hent Hinl].
      apply orb_false_iff in Hent as [Hbox Hset].
      rewrite Hbox, Hset, Hinl, Hconv. cbn. rewrite orb_false_r, Hmod.
      reflexivity.
    + cbn. rewrite orb_false_r, Hmod. reflexivity.
  - intros e.
    destruct (isPrintableKey (keyCode event)), (ctrlKey event), (metaKey event),
      (altKey event), (shiftKey event); cbn;
      repeat match goal with
             | |- context [if ?b then _ else _] => destruct b
             end; cbn; intuition discriminate.
  - intros [Hk | [Hk Hopen]]; rewrite Hk, Z.eqb_refl.
    + destruct (shiftKey event), (TAB keyCodes =? ENTER keyCodes),
        (Toolbox_opened w), (BlockSettings_opened w), (InlineToolbar_opened w),
        (ConversionToolbar_opened w); cbn; split; reflexivity.
    + destruct (shiftKey event), (ENTER keyCodes =? TAB keyCodes),
        (Toolbox_opened w), (BlockSettings_opened w), (InlineToolbar_opened w),
        (ConversionToolbar_opened w); cbn in Hopen |- *;
        try discriminate; split; reflexivity.
Qed.

(** *** Copy and cut *)

(** X16.  The immediate part of a cut is a copy plus the registration of
    the cut's reaction: [handleCommandC] and [handleCommandX] both return
    normally and leave the editor in the same state; without a block
    selection neither calls anything, and with one [handleCommandC] calls
    [copySelectedBlocks] only and [handleCommandX] makes the same call and
    then registers its reaction on the promise that call returned. *)
Theorem cut_extends_copy (event : ClipboardEvent) (w : St) :
  let copy := handleCommandC event w in
  let cut := handleCommandX event w in
  outcome copy = Returned tt
  /\ outcome cut = Returned tt
  /\ final cut = final copy
  /\ (BlockSelection_anyBlockSelected w = false ->
      calls copy = [] /\ calls cut = [] /\ final copy = w)
  /\ (BlockSelection_anyBlockSelected w = true ->
      calls copy = [BlockSelection_copySelectedBlocks (Clip event)]
      /\ calls cut =
           calls copy
           ++ [Promise_then (fst (do_copySelectedBlocks (Clip event) w))
                 (afterCopy (Clip event))]).
Proof.
  cbv zeta. unfold handleCommandC, handleCommandX. rewrite !bind_get.
  destruct (BlockSelection_anyBlockSelected w); cbn.
  - repeat split; discriminate.
  - repeat split; discriminate.
Qed.

(** *** Cross-block selection *)

Ltac all_calls_trivial :=
  repeat (intros;
          lazymatch goal with
          | |- Forall _ (calls (bind _ _ _)) => apply Forall_calls_bind
          | |- Forall _ (calls ((if ?b then _ else _) _)) => destruct b
          | |- Forall _ (calls (deref ?o _ _)) => destruct o; cbn [deref]
          | |- Forall _ (calls (match ?o with _ => _ end _)) => destruct o
          | |- Forall _ (calls (get _ _)) => apply Forall_nil
          | |- Forall _ (calls (ret _ _)) => apply Forall_nil
          | |- Forall _ (calls (throw _ _)) => apply Forall_nil
          | |- Forall _ (calls (emit _ _)) =>
              apply Forall_cons; [exact I | apply Forall_nil]
          | |- Forall _ (calls (invoke _ _ _)) =>
              apply Forall_cons; [exact I | apply Forall_nil]
          | |- Forall _ (calls (call _ _)) =>
              apply Forall_cons; [exact I | apply Forall_nil]
          | |- _ => progress cbv zeta
          end).

Lemma pre_keeps_selection (event : KeyboardEvent) (s : St) :
  Forall keepsCrossBlockSelection (calls (pre event s)).
Proof.
  destruct (pre_calls keyCodes isPrintableKey event s) as [-> | [-> | ->]];
    repeat constructor.
Qed.

Lemma enter_keeps_selection (event : KeyboardEvent) (s : St) :
  Forall keepsCrossBlockSelection (calls (enter config event s)).
Proof. unfold enter. all_calls_trivial. Qed.

Lemma backspace_keeps_selection (event : KeyboardEvent) (s : St) :
  Forall keepsCrossBlockSelection (calls (backspace event s)).
Proof. unfold backspace, mergeBlocks. all_calls_trivial. Qed.

Lemma tabPressed_keeps_selection (event : KeyboardEvent) (s : St) :
  Forall keepsCrossBlockSelection (calls (tabPressed event s)).
Proof.
  unfold tabPressed, activateToolbox, activateBlockSettings. all_calls_trivial.
Qed.

Lemma moveImageDown_keeps_selection (event : KeyboardEvent) (s : St) :
  Forall keepsCrossBlockSelection (calls (moveImageDown event s)).
Proof. unfold moveImageDown. all_calls_trivial. Qed.

Lemma moveImageUp_keeps_selection (event : KeyboardEvent) (s : St) :
  Forall keepsCrossBlockSelection (calls (moveImageUp event s)).
Proof. unfold moveImageUp. all_calls_trivial. Qed.

Lemma keepsCrossBlockSelection_toggle (l : list (Call num)) (next : option bool) :
  Forall keepsCrossBlockSelection l ->
  ~ In (CrossBlockSelection_toggleBlockSelectedState next) l.
Proof.
  intros Hall Hin. rewrite Forall_forall in Hall. exact (Hall _ Hin).
Qed.

Lemma rightAndDown_toggles (event : KeyboardEvent) (s : St) (next : option bool) :
  In (CrossBlockSelection_toggleBlockSelectedState next)
     (calls (rightAndDown event s)) ->
  let s1 := perform Toolbar_close (perform BlockManager_clearFocused s) in
  shiftKey event = true /\ keyCode event = DOWN keyCodes /\ next = None
  /\ (Caret_isAtEnd s1 = true \/ BlockSelection_anyBlockSelected s1 = true).
Proof.
  cbv zeta. unfold arrowRightAndDown, afterNavigation. unfold_all.
  cbn -[Z.eqb isFlipperCombination].
  destruct (UI_someToolbarOpened s
            && isFlipperCombination keyCodes Flipper_usedKeys event);
    cbn -[Z.eqb]; [tauto|].
  destruct (shiftKey event); cbn -[Z.eqb].
  - destruct (keyCode event =? DOWN keyCodes) eqn:Ek; cbn -[Z.eqb].
    + destruct (Caret_isAtEnd _ || BlockSelection_anyBlockSelected _) eqn:Ec;
        cbn -[Z.eqb].
      * apply Z.eqb_eq in Ek. apply orb_true_iff in Ec.
        intros [Hin | [Hin | [Hin | []]]]; try discriminate.
        injection Hin as <-. auto.
      * destruct (fst (do_navigateNext _)); cbn; intuition discriminate.
    + destruct ((keyCode event =? RIGHT keyCodes) && negb (isRtl config));
        cbn;
        [destruct (fst (do_navigateNext _))
        | destruct (fst (do_navigatePrevious _))];
        cbn; intuition discriminate.
  - destruct ((keyCode event =? DOWN keyCodes)
              || (keyCode event =? RIGHT keyCodes) && negb (isRtl config));
      cbn;
      [destruct (fst (do_navigateNext _))
      | destruct (fst (do_navigatePrevious _))];
      cbn; intuition discriminate.
Qed.

Lemma leftAndUp_toggles (event : KeyboardEvent) (s : St) (next : option bool) :
  In (CrossBlockSelection_toggleBlockSelectedState next)
     (calls (leftAndUp event s)) ->
  shiftKey event = true /\ keyCode event = UP keyCodes /\ next = Some false.
Proof.
  unfold arrowLeftAndUp, afterNavigation. unfold_all.
  cbn -[Z.eqb isFlipperCombination].
  destruct (UI_someToolbarOpened s) eqn:Eo;
    destruct (isFlipperCombination keyCodes Flipper_usedKeys event);
    cbn -[Z.eqb]; try tauto.
  all: destruct (shiftKey event); cbn -[Z.eqb].
  all: try (destruct ((keyCode event =? UP keyCodes)
                      || (keyCode event =? LEFT keyCodes) && negb (isRtl config));
            cbn;
            [destruct (fst (do_navigatePrevious _))
            | destruct (fst (do_navigateNext _))];
            cbn; intuition discriminate).
  all: destruct (keyCode event =? UP keyCodes) eqn:Ek; cbn -[Z.eqb].
  all: try (destruct ((keyCode event =? LEFT keyCodes) && negb (isRtl config));
            cbn;
            [destruct (fst (do_navigatePrevious _))
            | destruct (fst (do_navigateNext _))];
            cbn; intuition discriminate).
  all: apply Z.eqb_eq in Ek.
  all: destruct (Caret_isAtStart _ || BlockSelection_anyBlockSelected _);
    cbn -[Z.eqb].
  all: try (destruct (fst (do_navigatePrevious _)); cbn; intuition discriminate).
  all: intros Hin; repeat (destruct Hin as [Hin | Hin]; try discriminate Hin);
    try (injection Hin as <-; auto); try destruct Hin.
Qed.

(** X17.  Selection across blocks is toggled by nothing but a vertical arrow
    with shift held: whenever a keydown calls
    [CrossBlockSelection.toggleBlockSelectedState], shift is held and the
    key is ArrowDown, the call taking no argument, or ArrowUp, the call
    taking [false]. *)
Theorem only_shift_vertical_arrows_select_across (event : KeyboardEvent) (w : St)
    (next : option bool) :
  In (CrossBlockSelection_toggleBlockSelectedState next)
     (calls (keydown keyCodes isPrintableKey Flipper_usedKeys config event w)) ->
  shiftKey event = true
  /\ ((keyCode event = DOWN keyCodes /\ next = None)
      \/ (keyCode event = UP keyCodes /\ next = Some false)).
Proof.
  intros Hin.
  destruct (keydown_dispatch event w) as (body & Hrun & Hbody).
  destruct (keydown_via event body w Hrun) as (_ & Hc & _).
  rewrite Hc in Hin. apply in_app_or in Hin as [Hin | Hin].
  { exfalso. revert Hin. apply keepsCrossBlockSelection_toggle, pre_keeps_selection. }
  set (w1 := final (pre event w)) in *. clearbody w1.
  destruct Hbody as [[Hk ->] | [[Hk ->] | [[Hk ->] | [[Hk ->] | [[Hk ->]
    | [[Hk ->] | [[Hk ->] | [Hk ->]]]]]]]].
  - exfalso. revert Hin.
    apply keepsCrossBlockSelection_toggle, backspace_keeps_selection.
  - exfalso. revert Hin.
    apply keepsCrossBlockSelection_toggle, enter_keeps_selection.
  - apply In_calls_bind in Hin as [Hin | (a & s' & Hin)].
    + exfalso. revert Hin.
      apply keepsCrossBlockSelection_toggle, moveImageDown_keeps_selection.
    + apply rightAndDown_toggles in Hin as (Hs & Hd & Hn & _). auto.
  - apply rightAndDown_toggles in Hin as (Hs & Hd & Hn & _). auto.
  - apply In_calls_bind in Hin as [Hin | (a & s' & Hin)].
    + exfalso. revert Hin.
      apply keepsCrossBlockSelection_toggle, moveImageUp_keeps_selection.
    + apply leftAndUp_toggles in Hin as (Hs & Hd & Hn). auto.
  - apply leftAndUp_toggles in Hin as (Hs & Hd & Hn). auto.
  - exfalso. revert Hin.
    apply keepsCrossBlockSelection_toggle, tabPressed_keeps_selection.
  - destruct Hin.
Qed.
End Further.

(** ** The further properties on concrete editors *)

Section MoreConcrete.
Import Sim Examples MoreExamples.

Lemma enter_left_to_the_browser_witness :
  calls (press shiftEnter twoParagraphs) = []
  /\ final (press shiftEnter twoParagraphs) = twoParagraphs.
Proof.
  exact (proj2 (proj2 (proj2 (proj2
           (enter_left_to_the_browser domKeyCodes printable flipperKeys
              paragraphConfig shiftEnter twoParagraphs secondParagraph
              domKeyCodes_distinct eq_refl eq_refl
              (or_intror (or_intror eq_refl))))))
           eq_refl).
Defined.


Lemma enter_on_plain_block_witness :
  outcome (press enterKey twoParagraphs) = Returned tt
  /\ calls (press enterKey twoParagraphs) =
       calls (beforeKeydownProcessing domKeyCodes printable enterKey twoParagraphs)
       ++ [BlockManager_insertDefaultBlockAtIndex 1 None None;
           Caret_setToBlock (Some secondParagraph) None;
           Toolbar_moveAndOpen (Some secondParagraph);
           event_preventDefault (Key enterKey)].
Proof.
  refine (proj1 (enter_on_plain_block domKeyCodes printable flipperKeys
                   paragraphConfig enterKey twoParagraphs secondParagraph
                   domKeyCodes_distinct eq_refl eq_refl eq_refl eq_refl eq_refl _)
                eq_refl eq_refl).
  cbn. discriminate.
Defined.

Lemma enter_on_media_block_splits_witness :
  outcome (press enterKey figureAtStart) = Returned tt
  /\ calls (press enterKey figureAtStart) =
       calls (beforeKeydownProcessing domKeyCodes printable enterKey figureAtStart)
       ++ [BlockManager_split "paragraph";
           Caret_setToBlock (Some (newBlock "paragraph" 100%nat)) None;
           Toolbar_moveAndOpen (Some (newBlock "paragraph" 100%nat));
           event_preventDefault (Key enterKey)].
Proof.
  exact (enter_on_media_block_splits domKeyCodes printable flipperKeys
           paragraphConfig enterKey figureAtStart figure
           domKeyCodes_distinct eq_refl eq_refl eq_refl eq_refl eq_refl
           eq_refl eq_refl eq_refl).
Defined.

Lemma keydown_without_current_block_witness :
  (exists msg, outcome (press enterKey noBlocks) = Thrown (TypeError msg))
  /\ calls (press enterKey noBlocks) =
       calls (beforeKeydownProcessing domKeyCodes printable enterKey noBlocks)
  /\ final (press enterKey noBlocks) =
       final (beforeKeydownProcessing domKeyCodes printable enterKey noBlocks).
Proof.
  exact (proj1 (keydown_without_current_block domKeyCodes printable flipperKeys
                  paragraphConfig enterKey noBlocks domKeyCodes_distinct)
               (or_introl eq_refl) eq_refl).
Defined.

Lemma tab_never_throws_witness :
  outcome (press tabKey noBlocks) = Returned tt
  /\ calls (press tabKey noBlocks) =
       [event_preventDefault (Key tabKey);
        BlockSelection_clearSelection (Key tabKey)].
Proof.
  pose proof (tab_never_throws domKeyCodes printable flipperKeys paragraphConfig
                tabKey noBlocks domKeyCodes_distinct eq_refl) as [Ho Hc].
  split; [exact Ho|]. exact (proj1 (Hc eq_refl)).
Defined.

Lemma backspace_left_to_the_browser_witness :
  outcome (press backspaceKey caretAtStartOfFirst) = Returned tt
  /\ calls (press backspaceKey caretAtStartOfFirst) =
       calls (beforeKeydownProcessing domKeyCodes printable backspaceKey
                caretAtStartOfFirst).
Proof.
  pose proof (backspace_left_to_the_browser domKeyCodes printable flipperKeys
                paragraphConfig backspaceKey caretAtStartOfFirst paragraph
                eq_refl eq_refl eq_refl eq_refl
                (or_intror (or_intror (or_intror eq_refl))))
    as (Ho & Hc & _).
  split; [exact Ho | exact Hc].
Defined.


Lemma horizontal_arrows_follow_direction_witness :
  outcome (press arrowRight caretAtEndOfFirst) = Returned tt
  /\ calls (press arrowRight caretAtEndOfFirst) =
       calls (beforeKeydownProcessing domKeyCodes printable arrowRight
                caretAtEndOfFirst)
       ++ [BlockManager_clearFocused; Toolbar_close; Caret_navigateNext;
           delay refreshCurrentInput 20;
           BlockSelection_clearSelection (Key arrowRight)].
Proof.
  exact (proj1 (horizontal_arrows_follow_direction domKeyCodes printable
                  flipperKeys paragraphConfig arrowRight caretAtEndOfFirst
                  domKeyCodes_distinct eq_refl)
               eq_refl).
Defined.

Lemma keydown_on_other_keys_witness :
  press letterA twoParagraphs
  = beforeKeydownProcessing domKeyCodes printable letterA twoParagraphs.
Proof.
  refine (keydown_on_other_keys domKeyCodes printable flipperKeys paragraphConfig
            letterA twoParagraphs _).
  cbn. intuition discriminate.
Defined.

Lemma only_image_shortcut_reorders_witness :
  shiftKey shiftCmdArrowDown = true /\ metaKey shiftCmdArrowDown = true
  /\ (exists cb, BlocksAPI_getBlockByIndex 0 imageFirst = Some cb
                 /\ api_name cb = "image")
  /\ (exists neighbour, BlocksAPI_getBlockByIndex 1 imageFirst = Some neighbour)
  /\ ((keyCode shiftCmdArrowDown = DOWN domKeyCodes /\ 1 = 0 + 1)
      \/ (keyCode shiftCmdArrowDown = UP domKeyCodes /\ 1 = 0 - 1 /\ 0 <> 0)).
Proof.
  refine (only_image_shortcut_reorders domKeyCodes printable flipperKeys
            paragraphConfig shiftCmdArrowDown imageFirst 1 _).
  vm_compute. tauto.
Defined.

Lemma shift_cmd_arrow_on_other_block_witness :
  press shiftCmdArrowDown twoParagraphs
  = arrowRightAndDown domKeyCodes flipperKeys paragraphConfig shiftCmdArrowDown
      twoParagraphs.
Proof.
  refine (proj1 (shift_cmd_arrow_on_other_block domKeyCodes printable flipperKeys
                   paragraphConfig shiftCmdArrowDown twoParagraphs
                   (mkBlockAPI "paragraph" 24%nat)
                   domKeyCodes_distinct eq_refl eq_refl eq_refl _)
                eq_refl).
  cbn. discriminate.
Defined.

Lemma keydown_keeps_block_list_witness :
  Forall (fun c : Call Z => changesBlockList c = false)
         (calls (press (shiftCmd 9) emptyFirstBlock)).
Proof.
  refine (keydown_keeps_block_list domKeyCodes printable flipperKeys
            paragraphConfig (shiftCmd 9) emptyFirstBlock _ _ _).
  - cbn. discriminate.
  - cbn. discriminate.
  - cbn. intros [Hk | Hk]; discriminate Hk.
Defined.

Lemma beforeKeydownProcessing_respects_modifiers_witness :
  calls (beforeKeydownProcessing domKeyCodes printable ctrlA oneSelected) =
    [Toolbar_close; ConversionToolbar_close].
Proof.
  refine (proj1 (proj2 (beforeKeydownProcessing_respects_modifiers
                          domKeyCodes printable ctrlA oneSelected))
                eq_refl eq_refl eq_refl _ _).
  - cbn. discriminate.
  - cbn. discriminate.
Defined.

Lemma cut_extends_copy_witness :
  calls (handleCommandC cutEvent oneSelected) =
    [BlockSelection_copySelectedBlocks (Clip cutEvent)]
  /\ calls (handleCommandX cutEvent oneSelected) =
       calls (handleCommandC cutEvent oneSelected)
       ++ [Promise_then 100%nat (afterCopy (Clip cutEvent))].
Proof.
  exact (proj2 (proj2 (proj2 (proj2 (cut_extends_copy cutEvent oneSelected))))
               eq_refl).
Defined.

Lemma only_shift_vertical_arrows_select_across_witness :
  shiftKey shiftArrowDown = true
  /\ ((keyCode shiftArrowDown = DOWN domKeyCodes /\ @None bool = None)
      \/ (keyCode shiftArrowDown = UP domKeyCodes /\ None = Some false)).
Proof.
  refine (only_shift_vertical_arrows_select_across domKeyCodes printable
            flipperKeys paragraphConfig shiftArrowDown caretAtEndOfFirst None _).
  vm_compute. tauto.
Defined.

End MoreConcrete.
